(** * A conversational character and its ledger: model and properties

    Shallow embedding of [core/character.py] ([AICharacter],
    [AdvancedAICharacter]) and [core/advanced_features.py]
    ([AIConversationAnalyzer], [AIConversationBatchProcessor]).

    Conventions of the embedding:
    - a Python [str] is the list of its Unicode code points, so that [len],
      slicing and [strip] count what Python counts;
    - a conversation record is a Python [dict] with [str] keys, modelled by a
      [gmap string pystr];
    - a method that mutates [self] and may raise is a function from the
      object before the call to an outcome and the object after the call;
    - the clock, the random source, [str.format] on a template with
      braces and [datetime.fromisoformat] are inputs of the model;
    - attributes and arguments have the types of the annotations of the
      source (a name, a prompt, a text and a credential are [str]);
    - what a method prints is left out. *)

From Stdlib Require Import ZArith NArith Ascii String List Lia.
From stdpp Require Import base option list gmap strings.

Local Open Scope N_scope.

(** ** Python strings *)

Abbreviation pychar := N.
Abbreviation pystr := (list pychar).

(** Code points of a UTF-8 byte sequence; source literals are written as
    UTF-8 strings and decoded by [py]. *)
Fixpoint utf8_decode (bs : list N) : pystr :=
  match bs with
  | [] => []
  | b0 :: r0 =>
    if b0 <? 0x80 then b0 :: utf8_decode r0
    else match r0 with
         | [] => []
         | b1 :: r1 =>
           if b0 <? 0xE0
           then ((b0 - 0xC0) * 64 + (b1 - 0x80)) :: utf8_decode r1
           else match r1 with
                | [] => []
                | b2 :: r2 =>
                  if b0 <? 0xF0
                  then ((b0 - 0xE0) * 4096 + (b1 - 0x80) * 64 + (b2 - 0x80))
                         :: utf8_decode r2
                  else match r2 with
                       | [] => []
                       | b3 :: r3 =>
                         ((b0 - 0xF0) * 262144 + (b1 - 0x80) * 4096
                          + (b2 - 0x80) * 64 + (b3 - 0x80)) :: utf8_decode r3
                       end
                end
         end
  end.

Definition py (s : string) : pystr :=
  utf8_decode (map N_of_ascii (list_ascii_of_string s)).

(** [Py_UNICODE_ISSPACE]: the characters removed by [str.strip()] and
    separating the words of [str.split()]. *)
Definition is_space (c : pychar) : bool :=
  ((0x09 <=? c) && (c <=? 0x0D)) || ((0x1C <=? c) && (c <=? 0x20))
  || (c =? 0x85) || (c =? 0xA0) || (c =? 0x1680)
  || ((0x2000 <=? c) && (c <=? 0x200A))
  || (c =? 0x2028) || (c =? 0x2029) || (c =? 0x202F) || (c =? 0x205F)
  || (c =? 0x3000).

Fixpoint lstrip (s : pystr) : pystr :=
  match s with
  | [] => []
  | c :: r => if is_space c then lstrip r else s
  end.

Definition rstrip (s : pystr) : pystr := rev (lstrip (rev s)).

(** [s.strip()] *)
Definition strip (s : pystr) : pystr := rstrip (lstrip s).

(** [s.split()]: the maximal runs of non-space characters, in order.
    [cur] is the run being read, reversed. *)
Fixpoint split_from (cur : pystr) (s : pystr) : list pystr :=
  match s with
  | [] => match cur with [] => [] | _ => [rev cur] end
  | c :: r =>
    if is_space c
    then match cur with [] => split_from [] r | _ => rev cur :: split_from [] r end
    else split_from (c :: cur) r
  end.

Definition split (s : pystr) : list pystr := split_from [] s.

(** [len(s.split())] *)
Definition word_count (s : pystr) : nat := length (split s).

Fixpoint startswith (s p : pystr) : bool :=
  match p, s with
  | [], _ => true
  | _ :: _, [] => false
  | a :: p', b :: s' => (a =? b) && startswith s' p'
  end.

(** [sub in s] for two strings *)
Fixpoint contains (s sub : pystr) : bool :=
  startswith s sub ||
  match s with
  | [] => false
  | _ :: r => contains r sub
  end.

(** [n * c] for a one-character string [c] *)
Definition repeat_char (c : pychar) (n : Z) : pystr := replicate (Z.to_nat n) c.

(** [s[:n]] and [s[-n:]] for a positive literal [n] *)
Definition slice_to (n : nat) (s : pystr) : pystr := take n s.
Definition slice_last (n : nat) (s : pystr) : pystr := drop (length s - n) s.

Definition len (s : pystr) : Z := Z.of_nat (length s).


(** ** Exceptions and methods that mutate their object *)

Inductive exn :=
  | TypeError (msg : string)
  | ValueError (msg : string)
  | KeyError (key : string)
  | IndexError (msg : string)
  | UnboundLocalError (var : string)
  | OtherException (cls : string).

Inductive result (A : Type) : Type :=
  | Ok (a : A)
  | Raise (e : exn).
Arguments Ok {A} a.
Arguments Raise {A} e.

Definition is_ok {A} (r : result A) : bool :=
  match r with Ok _ => true | Raise _ => false end.

(** A method run on an object of type [S]: its outcome and the object
    afterwards.  What was assigned before a [raise] stays assigned. *)
Definition M (S A : Type) : Type := S -> result A * S.

Definition ret {S A} (a : A) : M S A := fun s => (Ok a, s).
Definition raise {S A} (e : exn) : M S A := fun s => (Raise e, s).
Definition bind {S A B} (m : M S A) (k : A -> M S B) : M S B :=
  fun s => match m s with
           | (Ok a, s') => k a s'
           | (Raise e, s') => (Raise e, s')
           end.
Definition get {S} : M S S := fun s => (Ok s, s).
Definition modify {S} (f : S -> S) : M S unit := fun s => (Ok tt, f s).
Definition lift {S A} (r : result A) : M S A := fun s => (r, s).

Declare Scope py_scope.
Delimit Scope py_scope with py.
Notation "x <- m ;; k" := (bind m (fun x => k))
  (at level 100, m at next level, right associativity) : py_scope.
Notation "m ;; k" := (bind m (fun _ => k))
  (at level 100, right associativity) : py_scope.

(** ** Values, records and the outside world *)

Inductive pyval :=
  | VNone
  | VBool (b : bool)
  | VInt (z : Z)
  | VStr (s : pystr)
  | VRound2 (num den : Z).
(** [VRound2 num den] is the float [round(num / den, 2)]. *)

(** A conversation record, a [dict] with [str] keys and [str] values. *)
Abbreviation record := (gmap string pystr).

(** What a call reads from outside the program.  A [datetime] is the number
    of microseconds on the local time line; [fromisoformat] is [None] where
    Python raises [ValueError]. *)
Record World := {
  now : Z;
  isoformat : Z -> pystr;
  fromisoformat : pystr -> option Z;
  choice_index : nat;
  format_fields : pystr -> pystr -> result pystr
}.

Definition date (t : Z) : Z := (t / 86400000000)%Z.

(** [random.choice(seq)] *)
Definition random_choice {A} (w : World) (seq : list A) : result A :=
  match seq !! (choice_index w mod length seq)%nat with
  | Some x => Ok x
  | None => Raise (IndexError "Cannot choose from an empty sequence")
  end.

Definition has_brace (s : pystr) : bool :=
  existsb (fun c => (c =? 0x7B) || (c =? 0x7D)) s.

(** [template.format(name=name)].  A template without [{] or [}] is
    returned as it is; the replacement fields of another one are left to
    the world. *)
Definition str_format (w : World) (template name : pystr) : result pystr :=
  if has_brace template then format_fields w template name else Ok template.

(** [s.replace('Z', '+00:00')] *)
Definition replace_Z (s : pystr) : pystr :=
  flat_map (fun c => if c =? 0x5A then py "+00:00" else [c]) s.

Record AICharacter := {
  _name : pystr;
  _system_prompt : pystr;
  model : pystr;
  conversation_history : list record;
  created_at : Z;
  __api_key : option pystr;
  __rate_limit : Z
}.

Record AdvancedAICharacter := {
  super : AICharacter;
  role : pystr;
  token_used : Z;
  skills : list (pystr * Z);
  _performance_score : Z
}.

(** An instance of [AICharacter]: of the class itself or of its subclass. *)
Inductive character :=
  | Base (c : AICharacter)
  | Advanced (a : AdvancedAICharacter).

Definition as_base (c : character) : AICharacter :=
  match c with
  | Base b => b
  | Advanced a => super a
  end.

(** An operand of [+]. *)
Inductive pyobj :=
  | ObjCharacter (c : character)
  | ObjValue (v : pyval).

(** ** Attribute assignments *)

Definition set__name (v : pystr) (c : AICharacter) : AICharacter :=
  {| _name := v; _system_prompt := _system_prompt c; model := model c;
     conversation_history := conversation_history c;
     created_at := created_at c; __api_key := __api_key c;
     __rate_limit := __rate_limit c |}.

Definition set__system_prompt (v : pystr) (c : AICharacter) : AICharacter :=
  {| _name := _name c; _system_prompt := v; model := model c;
     conversation_history := conversation_history c;
     created_at := created_at c; __api_key := __api_key c;
     __rate_limit := __rate_limit c |}.

Definition set_model (v : pystr) (c : AICharacter) : AICharacter :=
  {| _name := _name c; _system_prompt := _system_prompt c; model := v;
     conversation_history := conversation_history c;
     created_at := created_at c; __api_key := __api_key c;
     __rate_limit := __rate_limit c |}.

Definition set_conversation_history (v : list record) (c : AICharacter)
  : AICharacter :=
  {| _name := _name c; _system_prompt := _system_prompt c; model := model c;
     conversation_history := v;
     created_at := created_at c; __api_key := __api_key c;
     __rate_limit := __rate_limit c |}.

Definition set___api_key (v : option pystr) (c : AICharacter) : AICharacter :=
  {| _name := _name c; _system_prompt := _system_prompt c; model := model c;
     conversation_history := conversation_history c;
     created_at := created_at c; __api_key := v;
     __rate_limit := __rate_limit c |}.

Definition set_super (v : AICharacter) (a : AdvancedAICharacter)
  : AdvancedAICharacter :=
  {| super := v; role := role a; token_used := token_used a;
     skills := skills a; _performance_score := _performance_score a |}.

Definition set_token_used (v : Z) (a : AdvancedAICharacter)
  : AdvancedAICharacter :=
  {| super := super a; role := role a; token_used := v;
     skills := skills a; _performance_score := _performance_score a |}.

(** Truth value of a string: [not s] is [negb (truthy s)]. *)
Definition truthy (s : pystr) : bool :=
  match s with [] => false | _ :: _ => true end.

Definition MAX_NAME_LENGTH : Z := 50.
Definition MAX_PROMPT_LENGTH : Z := 1000.
Definition MIN_API_KEY_LENGTH : Z := 20.
Definition DEFAULT_MODEL : pystr := py "gpt-3.5-turbo".

(** ** Indexing *)

Definition result_bind {A B} (r : result A) (k : A -> result B) : result B :=
  match r with
  | Ok a => k a
  | Raise e => Raise e
  end.

(** [[f(x) for x in l]], stopping at the first element that raises. *)
Fixpoint result_map {A B} (f : A -> result B) (l : list A) : result (list B) :=
  match l with
  | [] => Ok []
  | x :: rest =>
    result_bind (f x) (fun y =>
    result_bind (result_map f rest) (fun ys => Ok (y :: ys)))
  end.

(** [conv[key]] *)
Definition getitem_record (conv : record) (key : string) : result pystr :=
  match conv !! key with
  | Some v => Ok v
  | None => Raise (KeyError key)
  end.

(** [l[i]] for an integer [i]: a negative [i] counts from the end. *)
Definition list_getitem {A} (l : list A) (i : Z) : result A :=
  let n := Z.of_nat (length l) in
  let j := (if i <? 0 then i + n else i)%Z in
  if ((0 <=? j) && (j <? n))%Z
  then match l !! Z.to_nat j with
       | Some x => Ok x
       | None => Raise (IndexError "list index out of range")
       end
  else Raise (IndexError "list index out of range").

(** What is written between the brackets of [character[...]]: an integer,
    a slice with its three optional integers, or a value of another type. *)
Inductive index :=
  | IndexInt (i : Z)
  | IndexSlice (start stop step : option Z)
  | IndexOther (type_name : string).

(** What [character[...]] gives: a record, or a list of records. *)
Inductive item :=
  | ItemRecord (r : record)
  | ItemRecords (rs : list record).

Definition clamp_index (i length lower upper : Z) : Z :=
  (if i <? 0 then Z.max (i + length) lower else Z.min i upper)%Z.

(** [slice(start, stop, step).indices(length)] *)
Definition slice_indices (start stop step : option Z) (length : Z)
  : result (Z * Z * Z) :=
  let step := default 1%Z step in
  if (step =? 0)%Z then Raise (ValueError "slice step cannot be zero")
  else
    let lower := (if step <? 0 then -1 else 0)%Z in
    let upper := (if step <? 0 then length - 1 else length)%Z in
    let start :=
      match start with
      | None => if (step <? 0)%Z then upper else lower
      | Some i => clamp_index i length lower upper
      end in
    let stop :=
      match stop with
      | None => if (step <? 0)%Z then lower else upper
      | Some i => clamp_index i length lower upper
      end in
    Ok (start, stop, step).

(** [list(range(start, stop, step))] *)
Definition range_list (start stop step : Z) : result (list Z) :=
  if (step =? 0)%Z then Raise (ValueError "range() arg 3 must not be zero")
  else
    let count :=
      (if 0 <? step
       then (if start <? stop then (stop - start - 1) / step + 1 else 0)
       else (if stop <? start then (start - stop - 1) / (- step) + 1 else 0))%Z in
    Ok (map (fun k => (start + Z.of_nat k * step)%Z) (seq 0 (Z.to_nat count))).

(** ** A [dict] with [str] keys, in insertion order *)

Section Dict.

Context {V : Type}.

(** [key in d] *)
Definition dict_contains (d : list (pystr * V)) (key : pystr) : bool :=
  existsb (fun kv => bool_decide (fst kv = key)) d.

(** [d.get(key)] *)
Fixpoint dict_get (d : list (pystr * V)) (key : pystr) : option V :=
  match d with
  | [] => None
  | (k, v) :: rest => if bool_decide (k = key) then Some v else dict_get rest key
  end.

(** [d[key] = v]: the value of a key already there is replaced in place,
    a new key goes to the end. *)
Fixpoint dict_set (d : list (pystr * V)) (key : pystr) (v : V)
  : list (pystr * V) :=
  match d with
  | [] => [(key, v)]
  | (k, v0) :: rest =>
    if bool_decide (k = key) then (k, v) :: rest
    else (k, v0) :: dict_set rest key v
  end.

(** [del d[key]], for a key of [d] *)
Definition dict_del (d : list (pystr * V)) (key : pystr) : list (pystr * V) :=
  filter (fun kv => fst kv <> key) d.

End Dict.

(** ** class AICharacter *)

Module AICharacter.

(** The decorator [validate_input]: [validate_input func] is the wrapper.
    Its first test, [isinstance(text, str)], holds of every [pystr]. *)
Definition validate_input {S A} (func : pystr -> M S A) (text : pystr)
  : M S A :=
  if negb (truthy (strip text)) then raise (TypeError "输入不能位空")
  else if (1000 <? len text)%Z
       then raise (TypeError "输入过长，请控制在1000字符以内")
       else func text.

(** The setter of the property [system_prompt]. *)
Definition system_prompt_setter (value : pystr) : M AICharacter unit :=
  if negb (truthy value) then raise (ValueError "系统提示词不能为空")
  else if (1000 <? len value)%Z
       then raise (ValueError "系统提示词过长，请精简到1000字符以内")
       else modify (set__system_prompt value).

(** [__init__]: [_name] is assigned directly, [system_prompt] through
    its setter. *)
Definition __init__ (w : World) (name system_prompt model : pystr)
  : result AICharacter :=
  let self := {| _name := name; _system_prompt := []; model := model;
                 conversation_history := []; created_at := now w;
                 __api_key := None; __rate_limit := 1000 |} in
  match system_prompt_setter system_prompt self with
  | (Ok _, self) => Ok self
  | (Raise e, _) => Raise e
  end.

(** The property [name]. *)
Definition name (self : AICharacter) : pystr := _name self.

Definition name_setter (value : pystr) : M AICharacter unit :=
  if negb (truthy value) || negb (truthy (strip value))
  then raise (ValueError "角色名不能为空")
  else if (50 <? len value)%Z
       then raise (ValueError "角色名不能超过50个字符")
       else modify (set__name (strip value)).

(** The property [api_key]: the masked reading, [None] when no key is
    stored. *)
Definition api_key (self : AICharacter) : option pystr :=
  match __api_key self with
  | Some key =>
    if truthy key then
      let visible_part := slice_to 3 key in
      let hidden_part := repeat_char 0x2A (len key - 7) in
      let last_part := if (7 <? len key)%Z then slice_last 4 key else [] in
      Some (visible_part ++ hidden_part ++ last_part)
    else None
  | None => None
  end.

(** The setter of [api_key]; the first message is written without its
    inner quotes. *)
Definition api_key_setter (value : pystr) : M AICharacter unit :=
  if negb (startswith value (py "sk-"))
  then raise (ValueError "API Key应以sk-开头")
  else if (len value <? 20)%Z
       then raise (ValueError "API Key太短，可能无效")
       else if contains value (py " ")
            then raise (ValueError "API Key不能包含空格")
            else modify (set___api_key (Some value)).

Definition api_key_deleter : M AICharacter unit :=
  modify (set___api_key None).

Definition __len__ (self : AICharacter) : Z :=
  Z.of_nat (length (conversation_history self)).

(** The table [rule_response] of [speak], in the order of the [dict]
    literal; the f-strings are already filled with [self.name]. *)
Definition rule_response (name : pystr) : list (pystr * list pystr) :=
  [ (py "名字", [ py "我叫" ++ name ++ py "，我是一个AI助手";
                  py "我是" ++ name ++ py "，请问有什么可以帮您" ]);
    (py "你好", [ py "你好呀"; py "嗨！很高兴见到你";
                  py "你好，请问有什么可以帮您" ]);
    (py "天气", [ py "今天下雨，记得带雨伞哦！";
                  py "今天大晴天，可以出去散散步，记得防晒哦";
                  py "今天天气不错呢" ]);
    (py "秋天", [ py "秋天是丰收的季节，我喜欢秋天"; py "我喜欢秋天的凉爽" ]);
    (py "谢谢", [ py "不客气。"; py "很高兴帮到您！"; py "这是我应该做的。" ]) ].

(** The [for keyword, response in rule_response.items()] loop: the reply
    of the first keyword found in [text], [None] when there is none. *)
Fixpoint match_rules (w : World) (name text : pystr)
         (rules : list (pystr * list pystr)) : result (option pystr) :=
  match rules with
  | [] => Ok None
  | (keyword, response) :: rest =>
    if contains text keyword then
      match random_choice w response with
      | Ok template =>
        match str_format w template name with
        | Ok ai_response => Ok (Some ai_response)
        | Raise e => Raise e
        end
      | Raise e => Raise e
      end
    else match_rules w name text rest
  end.

Definition fallback_response (name text : pystr) : pystr :=
  name ++ py ":我是你爹，不太明白" ++ text
       ++ py "的意思，你可以问我天气，名字，或者打招呼哦。".

Definition conversation_record (w : World) (text ai_response model : pystr)
  : record :=
  {[ "timestamp" := isoformat w (now w); "user" := text;
     "assistant" := ai_response; "model" := model ]}.

(** The body of [speak], before decoration. *)
Definition speak_body (w : World) (text : pystr) : M AICharacter pystr :=
  (self <- get ;;
   matched <- lift (match_rules w (name self) text (rule_response (name self))) ;;
   let ai_response :=
     match matched with
     | Some r => r
     | None => fallback_response (name self) text
     end in
   modify (fun self =>
     set_conversation_history
       (conversation_history self
          ++ [conversation_record w text ai_response (model self)]) self) ;;
   ret ai_response)%py.

(** [speak], decorated with [@validate_input]. *)
Definition speak (w : World) (text : pystr) : M AICharacter pystr :=
  validate_input (speak_body w) text.

(** [self + other], for [self] of the class or of a subclass. *)
Definition __add__ (w : World) (self : AICharacter) (other : pyobj)
  : result AICharacter :=
  match other with
  | ObjCharacter o =>
    match __init__ w (name self ++ py "&" ++ name (as_base o))
                   (py "merged Character") DEFAULT_MODEL with
    | Ok merged =>
      Ok (set_conversation_history
            (conversation_history self ++ conversation_history (as_base o))
            merged)
    | Raise e => Raise e
    end
  | ObjValue _ => Raise (TypeError "只能合并AICharacter对象")
  end.

(** The read-only property [rate_limit]. *)
Definition rate_limit (self : AICharacter) : Z := __rate_limit self.

(** The sum of [info_summary], record by record; a record without
    [user] or [assistant] raises [KeyError]. *)
Fixpoint summary_words (history : list record) : result Z :=
  match history with
  | [] => Ok 0%Z
  | conv :: rest =>
    result_bind (getitem_record conv "user") (fun user =>
    result_bind (getitem_record conv "assistant") (fun assistant =>
    result_bind (summary_words rest) (fun n =>
    Ok (Z.of_nat (word_count user) + Z.of_nat (word_count assistant) + n)%Z)))
  end.

(** The property [info_summary]. *)
Definition info_summary (w : World) (self : AICharacter)
  : result (gmap string pyval) :=
  result_bind (summary_words (conversation_history self)) (fun total_words =>
  Ok {[ "name" := VStr (name self);
        "model" := VStr (model self);
        "conversation_count" := VInt (__len__ self);
        "total_words" := VInt total_words;
        "active_days" := VInt ((now w - created_at self) / 86400000000 + 1)%Z ]}).

Definition get_system_prompt (self : AICharacter) : pystr := _system_prompt self.

Definition set_system_prompt (new_prompt : pystr) : M AICharacter unit :=
  system_prompt_setter new_prompt.

(** [self[index]] *)
Definition __getitem__ (self : AICharacter) (index : index) : result item :=
  let history := conversation_history self in
  let n := Z.of_nat (length history) in
  match index with
  | IndexSlice start stop step =>
    result_bind (slice_indices start stop step n) (fun '(start, stop, step) =>
    result_bind (range_list start stop step) (fun indices =>
    result_bind (result_map (list_getitem history) indices) (fun rs =>
    Ok (ItemRecords rs))))
  | IndexInt i =>
    let i := (if i <? 0 then n + i else i)%Z in
    if ((0 <=? i) && (i <? n))%Z
    then result_bind (list_getitem history i) (fun r => Ok (ItemRecord r))
    else Raise (IndexError "索引超出范围")
  | IndexOther _ => Raise (TypeError "索引必须是整数或切片")
  end.

(** [keyword in self]: the loop over the records, left to right. *)
Fixpoint __contains__loop (keyword : pystr) (history : list record)
  : result bool :=
  match history with
  | [] => Ok false
  | conv :: rest =>
    result_bind (getitem_record conv "user") (fun user =>
    if contains user keyword then Ok true
    else
      result_bind (getitem_record conv "assistant") (fun assistant =>
      if contains assistant keyword then Ok true
      else __contains__loop keyword rest))
  end.

Definition __contains__ (self : AICharacter) (keyword : pystr) : result bool :=
  __contains__loop keyword (conversation_history self).

End AICharacter.

(** ** class AdvancedAICharacter(AICharacter) *)

Module AdvancedAICharacter.

Definition __init__ (w : World) (name system_prompt model role : pystr)
  : result AdvancedAICharacter :=
  match AICharacter.__init__ w name system_prompt DEFAULT_MODEL with
  | Ok self =>
    Ok {| super := set_model model self; role := role; token_used := 0;
          skills := []; _performance_score := 100 |}
  | Raise e => Raise e
  end.

(** A method of the parent class run on the object. *)
Definition on_super {A} (m : M AICharacter A) : M AdvancedAICharacter A :=
  fun self => let (r, s) := m (super self) in (r, set_super s self).

Definition update_token_usage (input_message output_message : pystr)
  : M AdvancedAICharacter unit :=
  let input_tokens := Z.of_nat (word_count input_message) in
  let output_tokens := Z.of_nat (word_count output_message) in
  modify (fun self =>
    set_token_used (token_used self + (input_tokens + output_tokens))%Z self).

Definition _format_response_by_role (self : AdvancedAICharacter)
           (response : pystr) : pystr :=
  if bool_decide (role self = py "reviewer") then py "审查意见：" ++ response
  else if bool_decide (role self = py "tutor") then py "导师回答" ++ response
  else response.

(** [self.conversation_history[-1]['assistant'] = v], the history not
    being empty. *)
Definition set_last_assistant (v : pystr) (h : list record) : list record :=
  alter (<["assistant" := v]>) (length h - 1)%nat h.

(** The override of [speak]; [super().speak] is the decorated method of
    the parent. *)
Definition speak (w : World) (text : pystr) : M AdvancedAICharacter pystr :=
  (self <- get ;;
   let prefixed_text :=
     if bool_decide (role self = py "tutor") then py "【学生提问】" ++ text
     else if bool_decide (role self = py "reviewer")
          then py "【代码审查】" ++ text
          else text in
   response <- on_super (AICharacter.speak w prefixed_text) ;;
   update_token_usage prefixed_text response ;;
   self <- get ;;
   let formatted_response := _format_response_by_role self response in
   (if negb (bool_decide (conversation_history (super self) = []))
    then on_super (modify (fun s =>
           set_conversation_history
             (set_last_assistant (_format_response_by_role self response)
                                 (conversation_history s)) s))
    else ret tt) ;;
   ret formatted_response)%py.

End AdvancedAICharacter.

(** [char.speak(text)] on an instance of either class. *)
Definition speak (w : World) (text : pystr) : M character pystr :=
  fun c =>
    match c with
    | Base b =>
      let (r, b') := AICharacter.speak w text b in (r, Base b')
    | Advanced a =>
      let (r, a') := AdvancedAICharacter.speak w text a in (r, Advanced a')
    end.

(** ** class AIConversationAnalyzer *)

Module AIConversationAnalyzer.

(** One round of the loop counting today's conversations: [KeyError] and
    [ValueError] are caught and the record is skipped. *)
Definition is_today (w : World) (conv : record) : bool :=
  match conv !! "timestamp" with
  | Some ts =>
    match fromisoformat w (replace_Z ts) with
    | Some conv_time => bool_decide (date conv_time = date (now w))
    | None => false
    end
  | None => false
  end.

(** [conv.get(key, '')] *)
Definition get_or_empty (conv : record) (key : string) : pystr :=
  default [] (conv !! key).

(** [conv.get('timestamp')] *)
Definition get_timestamp (conv : record) : pyval :=
  match conv !! "timestamp" with
  | Some ts => VStr ts
  | None => VNone
  end.

Definition total_words (key : string) (history : list record) : Z :=
  foldl (fun acc conv => (acc + Z.of_nat (word_count (get_or_empty conv key)))%Z)
        0%Z history.

(** [get_conversation_stats], for [self.character] with the base
    attributes [character]. *)
Definition get_conversation_stats (w : World) (character : AICharacter)
  : gmap string pyval :=
  let history := conversation_history character in
  if negb (bool_decide (history = []))
  then
    let total := Z.of_nat (length history) in
    let today_conversation := filter (fun conv => is_today w conv = true) history in
    let total_user_words := total_words "users" history in
    let total_assistant_words := total_words "assistant" history in
    let first_conv := from_option get_timestamp VNone (head history) in
    let last_conv := from_option get_timestamp VNone (last history) in
    {[ "total_conversation" := VInt total;
       "today_conversation" := VInt (Z.of_nat (length today_conversation));
       "avg_user_words" :=
         (if (0 <? total)%Z then VRound2 total_user_words total else VInt 0);
       "avg_assistant_words" :=
         (if (0 <? total)%Z then VRound2 total_assistant_words total
          else VInt 0);
       "first_conversation" := first_conv;
       "last_conversation" := last_conv ]}
  else {[ "total" := VInt 0; "message" := VStr (py "暂无对话记录") ]}.

(** [conv('timestamp')]: a [dict] is not callable. *)
Definition call_record (conv : record) (arg : pystr) : result pystr :=
  Raise (TypeError "'dict' object is not callable").

Definition parse (w : World) (s : pystr) : result Z :=
  match fromisoformat w s with
  | Some t => Ok t
  | None => Raise (ValueError "Invalid isoformat string")
  end.

(** [bound and cmp conv_time (fromisoformat bound)] *)
Definition outside (w : World) (bound : option pystr)
           (cmp : Z -> Z -> bool) (conv_time : Z) : result bool :=
  match bound with
  | Some b =>
    if truthy b
    then match parse w b with
         | Ok t => Ok (cmp conv_time t)
         | Raise e => Raise e
         end
    else Ok false
  | None => Ok false
  end.

(** The loop of [export_conversations] over the remaining records. *)
Fixpoint export_loop (w : World) (start_date end_date : option pystr)
         (history filtered : list record) : result (list record) :=
  match history with
  | [] => Ok filtered
  | conv :: rest =>
    match call_record conv (py "timestamp") with
    | Raise e => Raise e
    | Ok ts =>
      match parse w ts with
      | Raise e => Raise e
      | Ok conv_time =>
        match outside w start_date Z.ltb conv_time with
        | Raise e => Raise e
        | Ok true => export_loop w start_date end_date rest filtered
        | Ok false =>
          match outside w end_date Z.gtb conv_time with
          | Raise e => Raise e
          | Ok true => export_loop w start_date end_date rest filtered
          | Ok false =>
            export_loop w start_date end_date rest (filtered ++ [conv])
          end
        end
      end
    end
  end.

Definition export_conversations (w : World) (character : AICharacter)
           (start_date end_date : option pystr) : result (list record) :=
  if bool_decide (conversation_history character = []) then Ok []
  else export_loop w start_date end_date (conversation_history character) [].

(** The loop of [find_conversation_by_keyword]. *)
Fixpoint find_loop (keyword : pystr) (history : list record)
  : result (list record) :=
  match history with
  | [] => Ok []
  | conv :: rest =>
    result_bind (getitem_record conv "user") (fun user =>
    result_bind (if contains user keyword then Ok true
                 else result_bind (getitem_record conv "assistant")
                        (fun assistant => Ok (contains assistant keyword)))
      (fun found =>
    result_bind (find_loop keyword rest) (fun result =>
    Ok (if found then conv :: result else result))))
  end.

Definition find_conversation_by_keyword (character : AICharacter)
           (keyword : pystr) : result (list record) :=
  find_loop keyword (conversation_history character).

End AIConversationAnalyzer.

(** ** class AIConversationBatchProcessor *)

Module AIConversationBatchProcessor.

(** The loop of [batch_converse] from its [i]-th round on.  [response] is
    the local variable of that name, [None] while it is unbound; [ws i] is
    the world read by the [i]-th call of [speak].  The result comes with
    the characters as the calls left them; the characters of the list are
    taken to be distinct objects. *)
Fixpoint batch_loop (ws : nat -> World) (i : nat) (message : pystr)
         (characters : list character) (response : option pystr)
         (results : gmap pystr (gmap string pyval))
  : result (gmap pystr (gmap string pyval)) * list character :=
  match characters with
  | [] => (Ok results, [])
  | char :: rest =>
    match speak (ws i) message char with
    | (Ok r, char') =>
      let results' :=
        <[AICharacter.name (as_base char') :=
            {[ "response" := VStr r; "success" := VBool true ]}]> results in
      let (out, rest') :=
        batch_loop ws (S i) message rest (Some r) results' in
      (out, char' :: rest')
    | (Raise e, char') =>
      match response with
      | Some r =>
        let results' :=
          <[AICharacter.name (as_base char') :=
              {[ "response" := VStr r; "success" := VBool false ]}]> results in
        let (out, rest') :=
          batch_loop ws (S i) message rest (Some r) results' in
        (out, char' :: rest')
      | None => (Raise (UnboundLocalError "response"), char' :: rest)
      end
    end
  end.

Definition batch_converse (ws : nat -> World)
           (characters : list character) (message : pystr)
  : result (gmap pystr (gmap string pyval)) * list character :=
  batch_loop ws 0 message characters None ∅.

End AIConversationBatchProcessor.

(** ** class AICharacterManager *)

Module AICharacterManager.

(** The attribute [characters], the only one: a [dict] from names to
    characters, empty after [__init__].  The messages of the two errors
    are written without the name they quote. *)
Definition __init__ : list (pystr * character) := [].

Definition add_character (c : character)
  : M (list (pystr * character)) pystr :=
  fun characters =>
    let name := AICharacter.name (as_base c) in
    if dict_contains characters name
    then (Raise (ValueError "角色名已存在"), characters)
    else (Ok (py "角色" ++ name ++ py "添加成功"), dict_set characters name c).

Definition remove_character (name : pystr)
  : M (list (pystr * character)) pystr :=
  fun characters =>
    if negb (dict_contains characters name)
    then (Raise (ValueError "角色不存在"), characters)
    else (Ok (py "角色" ++ name ++ py "已移除"), dict_del characters name).

Definition get_characters (characters : list (pystr * character))
           (name : pystr) : option character :=
  dict_get characters name.

(** [char.__class__.__name__] *)
Definition class_name (c : character) : pystr :=
  match c with
  | Base _ => py "AICharacter"
  | Advanced _ => py "AdvancedAICharacter"
  end.

Definition list_characters (characters : list (pystr * character))
  : list (gmap string pyval) :=
  map (fun kv =>
         let char := snd kv in
         {[ "name" := VStr (AICharacter.name (as_base char));
            "type" := VStr (class_name char);
            "conversations" := VInt (AICharacter.__len__ (as_base char));
            "model" := VStr (model (as_base char)) ]})
      characters.

End AICharacterManager.

(** ** Objects and their identity

    [a + b] builds a new character and a new list.  To tell a new list from
    an old one the lists and the characters live in a store, at addresses:
    an attribute [conversation_history] holds the address of a list. *)

Module Heap.

Abbreviation loc := positive.

(** The attributes of an [AICharacter] object. *)
Record object := {
  name_attr : pystr;
  system_prompt_attr : pystr;
  model_attr : pystr;
  conversation_history_ref : loc;
  created_at_attr : Z;
  api_key_attr : option pystr;
  rate_limit_attr : Z
}.

Record heap := {
  lists : gmap loc (list record);
  objects : gmap loc object
}.

(** An operand of [+]: a reference to a character, or another value. *)
Inductive operand :=
  | Ref (p : loc)
  | Val (v : pyval).

Definition new_list (items : list record) : M heap loc :=
  fun h =>
    let l := fresh (dom (lists h)) in
    (Ok l, {| lists := <[l := items]> (lists h); objects := objects h |}).

Definition new_object (o : object) : M heap loc :=
  fun h =>
    let p := fresh (dom (objects h)) in
    (Ok p, {| lists := lists h; objects := <[p := o]> (objects h) |}).

Definition get_object (p : loc) : M heap object :=
  fun h =>
    match objects h !! p with
    | Some o => (Ok o, h)
    | None => (Raise (OtherException "no object at this address"), h)
    end.

Definition get_list (l : loc) : M heap (list record) :=
  fun h =>
    match lists h !! l with
    | Some items => (Ok items, h)
    | None => (Raise (OtherException "no list at this address"), h)
    end.

(** [obj.conversation_history = l] *)
Definition set_history_ref (p l : loc) : M heap unit :=
  (o <- get_object p ;;
   modify (fun h =>
     {| lists := lists h;
        objects :=
          <[p := {| name_attr := name_attr o;
                    system_prompt_attr := system_prompt_attr o;
                    model_attr := model_attr o;
                    conversation_history_ref := l;
                    created_at_attr := created_at_attr o;
                    api_key_attr := api_key_attr o;
                    rate_limit_attr := rate_limit_attr o |}]> (objects h) |}))%py.

(** The attributes of [c], with its list at address [l]. *)
Definition object_of (c : AICharacter) (l : loc) : object :=
  {| name_attr := _name c;
     system_prompt_attr := _system_prompt c;
     model_attr := model c;
     conversation_history_ref := l;
     created_at_attr := created_at c;
     api_key_attr := __api_key c;
     rate_limit_attr := __rate_limit c |}.

(** [AICharacter(name, system_prompt, model)]: the checks of
    [AICharacter.__init__], then a new empty list and a new object. *)
Definition __init__ (w : World) (name system_prompt model : pystr)
  : M heap loc :=
  (c <- lift (AICharacter.__init__ w name system_prompt model) ;;
   l <- new_list (conversation_history c) ;;
   new_object (object_of c l))%py.

(** [self + other] *)
Definition __add__ (w : World) (self : loc) (other : operand) : M heap loc :=
  match other with
  | Val _ => raise (TypeError "只能合并AICharacter对象")
  | Ref other =>
    (a <- get_object self ;;
     b <- get_object other ;;
     merged <- __init__ w (name_attr a ++ py "&" ++ name_attr b)
                        (py "merged Character") DEFAULT_MODEL ;;
     la <- get_list (conversation_history_ref a) ;;
     lb <- get_list (conversation_history_ref b) ;;
     l <- new_list (la ++ lb) ;;
     set_history_ref merged l ;;
     ret merged)%py
  end.

(** The character stored at an address, as a value. *)
Definition read (h : heap) (p : loc) : option AICharacter :=
  o ← objects h !! p;
  items ← lists h !! conversation_history_ref o;
  Some {| _name := name_attr o; _system_prompt := system_prompt_attr o;
          model := model_attr o; conversation_history := items;
          created_at := created_at_attr o; __api_key := api_key_attr o;
          __rate_limit := rate_limit_attr o |}.

(** [self.conversation_history.append(record)]: the list at the address is
    changed in place. *)
Definition append_record (l : loc) (conv : record) : M heap unit :=
  (items <- get_list l ;;
   modify (fun h => {| lists := <[l := items ++ [conv]]> (lists h);
                       objects := objects h |}))%py.

(** [AICharacter.speak] on the object at [p]: the checks and the reply are
    those of the method on the attributes read from the store, and the
    record is appended to the list of the object. *)
Definition speak (w : World) (text : pystr) (p : loc) : M heap pystr :=
  fun h =>
    match read h p with
    | None => (Raise (OtherException "no object at this address"), h)
    | Some self =>
      match AICharacter.speak w text self with
      | (Ok ai_response, _) =>
        (o <- get_object p ;;
         append_record (conversation_history_ref o)
           (AICharacter.conversation_record w text ai_response (model self)) ;;
         ret ai_response)%py h
      | (Raise e, _) => (Raise e, h)
      end
    end.

End Heap.

(** ** The averages, in the words of the specification *)

(** Number of words of the field [key] of a record, an absent field having
    none. *)
Definition words_of (key : string) (conv : record) : nat :=
  word_count (default [] (conv !! key)).

(** Total word count of a field across all the records. *)
Definition spec_total_words (key : string) (history : list record) : nat :=
  sum_list (words_of key <$> history).

(** ** Predicates used by the properties *)

(** A table of rules whose reply lists are not empty and whose replies
    have no brace. *)
Definition rules_plain (rules : list (pystr * list pystr)) : Prop :=
  Forall (fun rule => snd rule <> []
                      /\ Forall (fun t => has_brace t = false) (snd rule))
         rules.

(** The first rule whose keyword occurs in the text. *)
Definition first_rule (text : pystr) (rules : list (pystr * list pystr))
  : option (pystr * list pystr) :=
  List.find (fun rule => contains text (fst rule)) rules.

(** A record with the four fields that [speak] writes, and no other. *)
Definition record_complete (conv : record) : Prop :=
  dom conv = ({[ "timestamp"; "user"; "assistant"; "model" ]} : gset string).

(** A record mentions a keyword in one of these two fields. *)
Definition record_mentions (keyword : pystr) (conv : record) : bool :=
  contains (default [] (conv !! "user")) keyword
  || contains (default [] (conv !! "assistant")) keyword.

(** The ledger of a character of either class. *)
Definition ledger (c : character) : list record :=
  conversation_history (as_base c).

(** The text that the rule engine sees, by role. *)
Definition prefixed (self : AdvancedAICharacter) (text : pystr) : pystr :=
  if bool_decide (role self = py "tutor") then py "【学生提问】" ++ text
  else if bool_decide (role self = py "reviewer") then py "【代码审查】" ++ text
  else text.

(** The keys of a registry are distinct and each is the name of its
    character. *)
Definition registry_ok (characters : list (pystr * character)) : Prop :=
  NoDup (fst <$> characters)
  /\ Forall (fun kv => fst kv = AICharacter.name (as_base (snd kv))) characters.

(** The text stored under [user] when [text] is said to [c]. *)
Definition seen_text (c : character) (text : pystr) : pystr :=
  match c with
  | Base _ => text
  | Advanced a => prefixed a text
  end.

(** Everything of a character but its ledger and its token count. *)
Definition profile (c : character)
  : pystr * pystr * pystr * Z * option pystr * Z
    * option (pystr * list (pystr * Z) * Z) :=
  let b := as_base c in
  (_name b, _system_prompt b, model b, created_at b, __api_key b,
   __rate_limit b,
   match c with
   | Base _ => None
   | Advanced a => Some (role a, skills a, _performance_score a)
   end).

(** ** Sample inputs *)

(** A world whose clock stands still, whose dice always give the first
    entry and which rejects every replacement field. *)
Definition w_sample : World :=
  {| now := 0; isoformat := fun _ => py "2024-05-01T10:00:00";
     fromisoformat := fun _ => None; choice_index := 0;
     format_fields := fun _ _ => Raise (ValueError "format") |}.

Definition alice : AICharacter :=
  {| _name := py "Alice"; _system_prompt := py "helpful";
     model := DEFAULT_MODEL; conversation_history := [];
     created_at := 0; __api_key := None; __rate_limit := 1000 |}.

Definition bob : AICharacter := set__name (py "Bob") alice.

Definition rex : AdvancedAICharacter :=
  {| super := set__name (py "Rex") alice; role := py "reviewer";
     token_used := 0; skills := []; _performance_score := 100 |}.

(** What [rex] answers to a line of code, and [rex] afterwards. *)
Definition rex_reply : pystr :=
  py "审查意见：" ++ AICharacter.fallback_response (py "Rex") (py "【代码审查】x = 1").

Definition rex_after : AdvancedAICharacter :=
  snd (AdvancedAICharacter.speak w_sample (py "x = 1") rex).

(** A store with two characters, each with one record in its own list. *)
Definition greeting (who : pystr) : record :=
  AICharacter.conversation_record w_sample (py "hi") who DEFAULT_MODEL.

Definition h_sample : Heap.heap :=
  {| Heap.lists := {[ 1%positive := [greeting (py "a")];
                      2%positive := [greeting (py "b")] ]};
     Heap.objects := {[ 1%positive := Heap.object_of alice 1%positive;
                        2%positive := Heap.object_of bob 2%positive ]} |}.

(** [alice] after three exchanges. *)
Definition alice3 : AICharacter :=
  snd (AICharacter.speak w_sample (py "谢谢")
         (snd (AICharacter.speak w_sample (py "x = 1")
                 (snd (AICharacter.speak w_sample (py "你好") alice))))).

(** * Properties *)

(** ** Strings *)

Example py_hello : py "你好" = [0x4F60; 0x597D].
Proof. reflexivity. Qed.

Example split_ex : split (py " a  bc ") = [py "a"; py "bc"].
Proof. reflexivity. Qed.

Example strip_ex : strip (py "  a b  ") = py "a b".
Proof. reflexivity. Qed.

Section Strings.

Implicit Types s p : pystr.

Lemma lstrip_all_space s : forallb is_space s = true -> lstrip s = [].
Proof.
  induction s as [|c r IH]; simpl; [done|].
  intros [Hc Hr]%andb_true_iff. rewrite Hc. auto.
Qed.

Lemma strip_all_space s : forallb is_space s = true -> strip s = [].
Proof. intros H. unfold strip, rstrip. rewrite (lstrip_all_space s) by done. reflexivity. Qed.

Lemma lstrip_nil_inv s : lstrip s = [] -> forallb is_space s = true.
Proof.
  induction s as [|c r IH]; simpl; [done|].
  destruct (is_space c); [auto | done].
Qed.

Lemma lstrip_suffix s : exists spaces, s = spaces ++ lstrip s
                                       /\ forallb is_space spaces = true.
Proof.
  induction s as [|c r (sp & Hr & Hsp)]; simpl; [by exists []|].
  destruct (is_space c) eqn:Hc.
  - exists (c :: sp). simpl. rewrite Hc, Hsp. split; [congruence | done].
  - by exists [].
Qed.

Lemma strip_nil_inv s : strip s = [] -> forallb is_space s = true.
Proof.
  unfold strip, rstrip. intros H.
  destruct (lstrip_suffix s) as (sp & Hs & Hsp).
  assert (Hrev : lstrip (rev (lstrip s)) = []).
  { apply (f_equal (@rev _)) in H. by rewrite rev_involutive in H. }
  apply lstrip_nil_inv in Hrev.
  rewrite Hs, forallb_app, Hsp. simpl.
  rewrite forallb_forall in Hrev |- *. intros c Hc. apply Hrev.
  by apply in_rev in Hc.
Qed.

(** [s.strip()] is empty exactly when [s] is empty or all whitespace. *)
Lemma strip_nil_iff s : strip s = [] <-> forallb is_space s = true.
Proof. split; [apply strip_nil_inv | apply strip_all_space]. Qed.

Lemma lstrip_length s : (length (lstrip s) <= length s)%nat.
Proof.
  induction s as [|c r IH]; simpl; [done|].
  destruct (is_space c); simpl; lia.
Qed.

Lemma strip_length s : (length (strip s) <= length s)%nat.
Proof.
  unfold strip, rstrip. rewrite length_rev.
  etrans; [apply lstrip_length|]. rewrite length_rev. apply lstrip_length.
Qed.

Lemma truthy_false s : truthy s = false <-> s = [].
Proof. by destruct s. Qed.

Lemma startswith_take s p : startswith s p = true <-> take (length p) s = p.
Proof.
  revert s. induction p as [|a p IH]; intros [|b s]; simpl; try done.
  rewrite andb_true_iff, IH, N.eqb_eq. split.
  - by intros [-> ->].
  - intros [= -> Hp]. by rewrite Hp.
Qed.

Lemma contains_char s (c : pychar) : contains s [c] = true <-> c ∈ s.
Proof.
  induction s as [|b r IH]; simpl.
  - split; [done | by intros ?%elem_of_nil].
  - replace (startswith r []) with true by (by destruct r).
    by rewrite orb_true_iff, IH, andb_true_r, N.eqb_eq, elem_of_cons.
Qed.

(** A string with a character that is no whitespace has a word. *)
Lemma split_from_nonempty cur s :
  cur <> [] \/ existsb (fun c => negb (is_space c)) s = true ->
  split_from cur s <> [].
Proof.
  revert cur. induction s as [|c r IH]; intros cur; simpl.
  - intros [H|H]; [by destruct cur | done].
  - destruct (is_space c) eqn:Hc; simpl.
    + intros [H|H]; [by destruct cur | destruct cur; [auto | done]].
    + intros _. apply IH. by left.
Qed.

Lemma word_count_pos s :
  existsb (fun c => negb (is_space c)) s = true -> (1 <= word_count s)%nat.
Proof.
  intros H. unfold word_count, split.
  pose proof (split_from_nonempty [] s (or_intror H)) as Hne.
  destruct (split_from [] s); [done | simpl; lia].
Qed.

End Strings.

(** ** Validation of the input of [speak] *)

(** C1. For every input that is empty or made only of whitespace,
    [AICharacter.speak] raises the error of its input validation before
    anything is assigned: the character is left as it was, so no record is
    appended and the length of the ledger is the length before the call. *)
Theorem speak_blank_input_rejected (w : World) (self : AICharacter)
        (text : pystr) :
  forallb is_space text = true ->
  AICharacter.speak w text self = (Raise (TypeError "输入不能位空"), self)
  /\ conversation_history (snd (AICharacter.speak w text self))
     = conversation_history self
  /\ AICharacter.__len__ (snd (AICharacter.speak w text self))
     = AICharacter.__len__ self.
Proof.
  intros Hblank.
  assert (Hrun : AICharacter.speak w text self
                 = (Raise (TypeError "输入不能位空"), self)).
  { unfold AICharacter.speak, AICharacter.validate_input.
    by rewrite (strip_all_space text Hblank). }
  by rewrite Hrun.
Qed.

Lemma speak_blank_input_rejected_witness :
  let text := py "  " ++ [0x09; 0x3000] in
  AICharacter.speak w_sample text alice
  = (Raise (TypeError "输入不能位空"), alice)
  /\ conversation_history (snd (AICharacter.speak w_sample text alice))
     = conversation_history alice
  /\ AICharacter.__len__ (snd (AICharacter.speak w_sample text alice))
     = AICharacter.__len__ alice.
Proof. apply speak_blank_input_rejected. reflexivity. Defined.

(** ** The setter of [name] *)

(** C2, as amended. The setter tests the length of the name as given, not
    of the trimmed name: a name that is not blank and has at most 50
    characters before trimming is stored trimmed; a blank name, or one of
    more than 50 characters before trimming (so every name whose trimmed
    form has more than 50), raises a [ValueError] and the name stays. *)
Theorem name_setter_spec (value : pystr) (self : AICharacter) :
  (strip value <> [] /\ (len value <= 50)%Z ->
     AICharacter.name_setter value self = (Ok tt, set__name (strip value) self)
     /\ AICharacter.name (set__name (strip value) self) = strip value)
  /\ (strip value = [] \/ (50 < len value)%Z ->
      exists msg,
        AICharacter.name_setter value self = (Raise (ValueError msg), self))
  /\ ((50 < len (strip value))%Z -> (50 < len value)%Z).
Proof.
  unfold AICharacter.name_setter.
  assert (Hblank : negb (truthy value) || negb (truthy (strip value)) = true
                   <-> strip value = []).
  { rewrite orb_true_iff, !negb_true_iff, !truthy_false.
    split; [intros [->|?]; done | auto]. }
  split; [|split].
  - intros [Hne Hlen].
    assert (E : negb (truthy value) || negb (truthy (strip value)) = false).
    { apply not_true_iff_false. by rewrite Hblank. }
    apply Z.ltb_ge in Hlen. by rewrite E, Hlen.
  - intros [Hnil|Hlong].
    + apply Hblank in Hnil. rewrite Hnil. eauto.
    + destruct (negb (truthy value) || negb (truthy (strip value))); [eauto|].
      apply Z.ltb_lt in Hlong. rewrite Hlong. eauto.
  - unfold len. pose proof (strip_length value). lia.
Qed.

Lemma name_setter_spec_witness :
  AICharacter.name_setter (py "  Carol ") alice
  = (Ok tt, set__name (py "Carol") alice)
  /\ AICharacter.name (set__name (py "Carol") alice) = py "Carol".
Proof.
  apply (proj1 (name_setter_spec (py "  Carol ") alice)).
  split; [discriminate | vm_compute; discriminate].
Defined.

(** C2, as stated, fails: a name of 3 characters followed by 48 spaces has
    a trimmed form of length 3, and the setter refuses it. *)
Lemma name_setter_padded_name_rejected :
  let value := py "Bob" ++ replicate 48 0x20 in
  len (strip value) = 3%Z
  /\ AICharacter.name_setter value alice
     = (Raise (ValueError "角色名不能超过50个字符"), alice).
Proof. split; reflexivity. Qed.

(** ** Construction *)

Lemma init_outcome_ignores_name (w : World) (n1 n2 system_prompt model : pystr) :
  is_ok (AICharacter.__init__ w n1 system_prompt model)
  = is_ok (AICharacter.__init__ w n2 system_prompt model).
Proof.
  unfold AICharacter.__init__, AICharacter.system_prompt_setter.
  destruct (negb (truthy system_prompt)); [done|].
  by destruct (1000 <? len system_prompt)%Z.
Qed.

(** C10. [AICharacter.__init__] assigns [_name] without any test: whatever
    the name (empty, blank, longer than 50 characters), construction with
    an acceptable system prompt succeeds and the property [name] reads
    back the string as given, untrimmed. *)
Theorem init_keeps_any_name (w : World) (name system_prompt model : pystr) :
  system_prompt <> [] -> (len system_prompt <= 1000)%Z ->
  exists self,
    AICharacter.__init__ w name system_prompt model = Ok self
    /\ AICharacter.name self = name
    /\ _name self = name.
Proof.
  intros Hne Hlen.
  unfold AICharacter.__init__, AICharacter.system_prompt_setter.
  destruct system_prompt as [|c p]; [done|]. simpl truthy. simpl negb.
  apply Z.ltb_ge in Hlen. rewrite Hlen. simpl. eauto.
Qed.

Lemma init_keeps_any_name_witness :
  exists self,
    AICharacter.__init__ w_sample (py "  ") (py "helpful") DEFAULT_MODEL
    = Ok self
    /\ AICharacter.name self = py "  "
    /\ _name self = py "  ".
Proof.
  apply init_keeps_any_name; [discriminate | vm_compute; discriminate].
Defined.

Example init_long_name :
  AICharacter.name <$>
    (match AICharacter.__init__ w_sample (replicate 60 0x61) (py "p")
             DEFAULT_MODEL with Ok c => Some c | Raise _ => None end)
  = Some (replicate 60 0x61).
Proof. reflexivity. Qed.

(** ** Merging two characters *)

(** C4. [a + b] is a new character whose ledger is the records of [a]
    followed by the records of [b], of length [len(a) + len(b)], and whose
    name is [a.name + "&" + b.name]; with an operand that is no character
    it raises a [TypeError]. *)
Theorem add_concatenates (w : World) (a b : character) :
  (exists merged,
     AICharacter.__add__ w (as_base a) (ObjCharacter b) = Ok merged
     /\ conversation_history merged
        = conversation_history (as_base a) ++ conversation_history (as_base b)
     /\ AICharacter.__len__ merged
        = (AICharacter.__len__ (as_base a) + AICharacter.__len__ (as_base b))%Z
     /\ AICharacter.name merged
        = AICharacter.name (as_base a) ++ py "&" ++ AICharacter.name (as_base b))
  /\ (forall v : pyval,
        AICharacter.__add__ w (as_base a) (ObjValue v)
        = Raise (TypeError "只能合并AICharacter对象")).
Proof.
  split; [|done].
  eexists. split; [reflexivity|].
  unfold AICharacter.__len__. simpl.
  rewrite length_app. split; [done | split; [lia | done]].
Qed.

Example add_sample :
  AICharacter.name <$>
    (match AICharacter.__add__ w_sample alice (ObjCharacter (Advanced rex)) with
     | Ok c => Some c | Raise _ => None end)
  = Some (py "Alice&Rex").
Proof. reflexivity. Qed.

(** ** The credential *)

Lemma masked_middle (value : pystr) (i : nat) :
  (7 <= length value)%nat -> (3 <= i < length value - 4)%nat ->
  (take 3 value ++ replicate (length value - 7) (0x2A : pychar)
        ++ drop (length value - 4) value) !! i = Some 0x2A.
Proof.
  intros Hlen Hi.
  rewrite lookup_app_r; rewrite length_take_le by lia; [|lia].
  rewrite lookup_app_l; [|rewrite length_replicate; lia].
  apply lookup_replicate_2. lia.
Qed.

(** C8. A credential that starts with [sk-], has at least 20 characters
    and no space is accepted and stored as given; reading the property
    then gives its first 3 characters, [len - 7] stars and its last 4
    characters.  That reading has the length of the credential and shows a
    star at every position from the fourth to the fifth from the end, so
    it is computed on reading and never shows the middle of the stored
    value. *)
Theorem api_key_masked (value : pystr) (self : AICharacter) :
  take 3 value = py "sk-" -> (20 <= length value)%nat ->
  (0x20 : pychar) ∉ value ->
  AICharacter.api_key_setter value self
  = (Ok tt, set___api_key (Some value) self)
  /\ exists masked,
      AICharacter.api_key (snd (AICharacter.api_key_setter value self))
      = Some masked
      /\ masked = take 3 value ++ replicate (length value - 7) (0x2A : pychar)
                        ++ drop (length value - 4) value
      /\ length masked = length value
      /\ forall i, (3 <= i < length value - 4)%nat -> masked !! i = Some 0x2A.
Proof.
  intros Hprefix Hlen Hspace.
  assert (Hset : AICharacter.api_key_setter value self
                 = (Ok tt, set___api_key (Some value) self)).
  { unfold AICharacter.api_key_setter.
    rewrite (proj2 (startswith_take value (py "sk-")) Hprefix). simpl negb.
    assert (Hl : (len value <? 20)%Z = false) by (apply Z.ltb_ge; unfold len; lia).
    rewrite Hl.
    destruct (contains value (py " ")) eqn:E; [|done].
    by apply (proj1 (contains_char value 0x20)) in E. }
  split; [done|]. rewrite Hset. cbn [snd].
  unfold AICharacter.api_key, set___api_key. cbn [__api_key].
  assert (Ht : truthy value = true) by (destruct value; [simpl in Hlen; lia | done]).
  assert (H7 : (7 <? len value)%Z = true) by (apply Z.ltb_lt; unfold len; lia).
  rewrite Ht, H7. unfold slice_to, slice_last, repeat_char.
  replace (Z.to_nat (len value - 7)) with (length value - 7)%nat
    by (unfold len; lia).
  eexists. split; [reflexivity|]. split; [reflexivity|]. split.
  - rewrite !length_app, length_take_le, length_replicate, length_drop by lia. lia.
  - intros i Hi. apply masked_middle; lia.
Qed.

Lemma api_key_masked_witness :
  let value := py "sk-1234567890abcdefghijklmn" in
  AICharacter.api_key_setter value alice
  = (Ok tt, set___api_key (Some value) alice)
  /\ exists masked,
      AICharacter.api_key (snd (AICharacter.api_key_setter value alice))
      = Some masked
      /\ masked = take 3 value ++ replicate (length value - 7) (0x2A : pychar)
                        ++ drop (length value - 4) value
      /\ length masked = length value
      /\ forall i, (3 <= i < length value - 4)%nat -> masked !! i = Some 0x2A.
Proof.
  apply api_key_masked; [reflexivity | vm_compute; lia | ].
  intros Hin. by apply (proj2 (contains_char _ _)) in Hin.
Defined.

Example api_key_sample :
  AICharacter.api_key
    (snd (AICharacter.api_key_setter (py "sk-1234567890abcdefghijklmn") alice))
  = Some (py "sk-********************klmn").
Proof. reflexivity. Qed.

(** ** One exchange *)

(** A call of [AICharacter.speak] that returns appends exactly one record,
    made of the text and of the reply. *)
Lemma speak_inv (w : World) (text reply : pystr) (self self' : AICharacter) :
  AICharacter.speak w text self = (Ok reply, self') ->
  self' = set_conversation_history
            (conversation_history self
               ++ [AICharacter.conversation_record w text reply (model self)])
            self.
Proof.
  unfold AICharacter.speak, AICharacter.validate_input.
  destruct (negb (truthy (strip text))); [by intros [=]|].
  destruct (1000 <? len text)%Z; [by intros [=]|].
  unfold AICharacter.speak_body, bind, get, lift, modify, ret.
  destruct (AICharacter.match_rules _ _ _ _) as [m|e]; [|by intros [=]].
  by intros [= <- <-].
Qed.

(** It returns whenever the text is not blank, has at most 1000
    characters and the reply of the matched rule can be formatted. *)
Lemma speak_runs (w : World) (text : pystr) (self : AICharacter)
      (matched : option pystr) :
  strip text <> [] -> (len text <= 1000)%Z ->
  AICharacter.match_rules w (AICharacter.name self) text
    (AICharacter.rule_response (AICharacter.name self)) = Ok matched ->
  let reply :=
    default (AICharacter.fallback_response (AICharacter.name self) text) matched in
  AICharacter.speak w text self
  = (Ok reply,
     set_conversation_history
       (conversation_history self
          ++ [AICharacter.conversation_record w text reply (model self)]) self).
Proof.
  intros Hne Hlen Hmatch.
  unfold AICharacter.speak, AICharacter.validate_input.
  destruct (strip text) eqn:Hs; [done|]. cbn [truthy negb].
  apply Z.ltb_ge in Hlen. rewrite Hlen.
  unfold AICharacter.speak_body, bind, get, lift, modify, ret.
  rewrite Hmatch. by destruct matched.
Qed.

Lemma set_last_assistant_snoc (v : pystr) (h : list record) (r : record) :
  AdvancedAICharacter.set_last_assistant v (h ++ [r])
  = h ++ [<["assistant" := v]> r].
Proof.
  unfold AdvancedAICharacter.set_last_assistant.
  rewrite length_app. simpl.
  replace (length h + 1 - 1)%nat with (length h + 0)%nat by lia.
  by rewrite alter_app_r.
Qed.

Lemma startswith_app (p s : pystr) : startswith (p ++ s) p = true.
Proof. apply startswith_take. by rewrite take_app_length. Qed.

(** ** The reviewer *)

(** C3. When the role is [reviewer], every call of [speak] that returns
    appends exactly one record.  The reply is the review label followed by
    the raw reply of the rule engine, and it is what the record holds
    under [assistant], in place of the raw reply; the record holds the
    prefixed input under [user].  [token_used] grows by the word counts of
    the prefixed input and of the raw reply, which is at least 1. *)
Theorem reviewer_speak_spec (w : World) (text : pystr)
        (self self' : AdvancedAICharacter) (reply : pystr) :
  role self = py "reviewer" ->
  AdvancedAICharacter.speak w text self = (Ok reply, self') ->
  exists raw : pystr,
    let prefixed_text := py "【代码审查】" ++ text in
    fst (AICharacter.speak w prefixed_text (super self)) = Ok raw
    /\ reply = py "审查意见：" ++ raw
    /\ conversation_history (super self')
       = conversation_history (super self)
           ++ [<["assistant" := py "审查意见：" ++ raw]>
                 (AICharacter.conversation_record w prefixed_text raw
                    (model (super self)))]
    /\ (exists rec : record,
          last (conversation_history (super self')) = Some rec
          /\ rec !! "assistant" = Some reply
          /\ rec !! "user" = Some prefixed_text
          /\ startswith reply (py "审查意见：") = true)
    /\ length (conversation_history (super self'))
       = S (length (conversation_history (super self)))
    /\ token_used self'
       = (token_used self
          + (Z.of_nat (word_count prefixed_text) + Z.of_nat (word_count raw)))%Z
    /\ (token_used self + 1 <= token_used self')%Z.
Proof.
  intros Hrole Hrun.
  unfold AdvancedAICharacter.speak, bind, get in Hrun.
  rewrite Hrole in Hrun.
  rewrite (bool_decide_eq_false_2 (py "reviewer" = py "tutor")) in Hrun
    by discriminate.
  rewrite (bool_decide_eq_true_2 (py "reviewer" = py "reviewer")) in Hrun
    by reflexivity.
  unfold AdvancedAICharacter.on_super at 1 in Hrun.
  destruct (AICharacter.speak w (py "【代码审查】" ++ text) (super self))
    as [[raw|e] s0] eqn:Hbase; [|discriminate].
  apply speak_inv in Hbase as Hs0. subst s0.
  unfold AdvancedAICharacter.update_token_usage, modify, ret in Hrun.
  unfold AdvancedAICharacter._format_response_by_role,
         AdvancedAICharacter.on_super in Hrun.
  cbn [super role set_super set_token_used conversation_history
       set_conversation_history token_used] in Hrun.
  rewrite Hrole in Hrun.
  rewrite (bool_decide_eq_true_2 (py "reviewer" = py "reviewer")) in Hrun
    by reflexivity.
  rewrite bool_decide_eq_false_2 in Hrun
    by (intros [_ [=]]%app_eq_nil).
  cbn [negb] in Hrun.
  unfold set_super, set_token_used, set_conversation_history in Hrun.
  cbn [super token_used conversation_history] in Hrun.
  rewrite set_last_assistant_snoc in Hrun.
  apply pair_equal_spec in Hrun as [Hreply <-].
  assert (reply = py "审查意见：" ++ raw) as -> by congruence. clear Hreply.
  exists raw. cbn zeta. cbn [super token_used conversation_history].
  split; [by rewrite Hbase|]. split; [done|]. split; [done|]. split.
  { eexists. split; [apply last_snoc|]. split; [apply lookup_insert_eq|].
    split; [|apply startswith_app].
    rewrite lookup_insert_ne by done. reflexivity. }
  split; [rewrite length_app; simpl; lia|]. split; [done|].
  assert (1 <= word_count (py "【代码审查】" ++ text))%nat
    by (apply word_count_pos; reflexivity).
  lia.
Qed.

Lemma reviewer_speak_spec_witness :
  exists raw : pystr,
    let prefixed_text := py "【代码审查】" ++ py "x = 1" in
    fst (AICharacter.speak w_sample prefixed_text (super rex)) = Ok raw
    /\ rex_reply = py "审查意见：" ++ raw
    /\ conversation_history (super rex_after)
       = conversation_history (super rex)
           ++ [<["assistant" := py "审查意见：" ++ raw]>
                 (AICharacter.conversation_record w_sample prefixed_text raw
                    (model (super rex)))]
    /\ (exists rec : record,
          last (conversation_history (super rex_after)) = Some rec
          /\ rec !! "assistant" = Some rex_reply
          /\ rec !! "user" = Some prefixed_text
          /\ startswith rex_reply (py "审查意见：") = true)
    /\ length (conversation_history (super rex_after))
       = S (length (conversation_history (super rex)))
    /\ token_used rex_after
       = (token_used rex
          + (Z.of_nat (word_count prefixed_text) + Z.of_nat (word_count raw)))%Z
    /\ (token_used rex + 1 <= token_used rex_after)%Z.
Proof.
  apply (reviewer_speak_spec w_sample (py "x = 1") rex rex_after rex_reply);
    reflexivity.
Defined.

Example rex_counts_tokens : token_used rex_after = 6%Z.
Proof. reflexivity. Qed.

(** A reviewer answers every text of at most 994 characters for which the
    reply of the matched rule can be formatted: the prefix makes the text
    non-blank. *)
Lemma reviewer_speak_runs (w : World) (text : pystr)
      (self : AdvancedAICharacter) (matched : option pystr) :
  role self = py "reviewer" ->
  (len text <= 994)%Z ->
  AICharacter.match_rules w (AICharacter.name (super self))
    (py "【代码审查】" ++ text)
    (AICharacter.rule_response (AICharacter.name (super self))) = Ok matched ->
  exists self' : AdvancedAICharacter,
    AdvancedAICharacter.speak w text self
    = (Ok (py "审查意见：" ++
           default (AICharacter.fallback_response
                      (AICharacter.name (super self)) (py "【代码审查】" ++ text))
                   matched),
       self').
Proof.
  intros Hrole Hlen Hmatch.
  assert (Hne : strip (py "【代码审查】" ++ text) <> []).
  { intros Hs. by apply strip_nil_iff in Hs. }
  assert (Hlen' : (len (py "【代码审查】" ++ text) <= 1000)%Z).
  { unfold len in *. rewrite length_app.
    change (length (py "【代码审查】")) with 6%nat. lia. }
  pose proof (speak_runs w _ (super self) matched Hne Hlen' Hmatch) as Hbase.
  cbv zeta in Hbase.
  unfold AdvancedAICharacter.speak, bind, get. rewrite Hrole.
  rewrite (bool_decide_eq_false_2 (py "reviewer" = py "tutor")) by discriminate.
  rewrite (bool_decide_eq_true_2 (py "reviewer" = py "reviewer"))
    by reflexivity.
  unfold AdvancedAICharacter.on_super at 1. rewrite Hbase.
  unfold AdvancedAICharacter.update_token_usage, modify, ret.
  unfold AdvancedAICharacter._format_response_by_role,
         AdvancedAICharacter.on_super.
  unfold set_super, set_token_used, set_conversation_history.
  cbn [super role token_used conversation_history].
  rewrite Hrole.
  rewrite (bool_decide_eq_true_2 (py "reviewer" = py "reviewer"))
    by reflexivity.
  rewrite bool_decide_eq_false_2 by (intros [_ [=]]%app_eq_nil).
  cbn [negb]. eauto.
Qed.

(** ** The analyzer *)

Lemma total_words_from (key : string) (history : list record) (acc : Z) :
  foldl (fun acc conv =>
           (acc + Z.of_nat (word_count
                              (AIConversationAnalyzer.get_or_empty conv key)))%Z)
        acc history
  = (acc + Z.of_nat (spec_total_words key history))%Z.
Proof.
  revert acc. induction history as [|conv rest IH]; intros acc; simpl.
  - unfold spec_total_words. simpl. lia.
  - rewrite IH.
    change (word_count (AIConversationAnalyzer.get_or_empty conv key))
      with (words_of key conv).
    unfold spec_total_words. rewrite fmap_cons. cbn [sum_list_with id]. lia.
Qed.

Lemma total_words_spec (key : string) (history : list record) :
  AIConversationAnalyzer.total_words key history
  = Z.of_nat (spec_total_words key history).
Proof. unfold AIConversationAnalyzer.total_words. by rewrite total_words_from. Qed.

(** C5, as amended. For a ledger that is not empty,
    [get_conversation_stats] gives as [avg_assistant_words] the total word
    count of the [assistant] fields divided by the number of records and
    rounded to 2 decimal places, beside the number of records; for an
    empty ledger it gives a total of 0 and a message, and no average. *)
Theorem stats_assistant_average (w : World) (character : AICharacter) :
  (conversation_history character <> [] ->
   AIConversationAnalyzer.get_conversation_stats w character
     !! "avg_assistant_words"
   = Some (VRound2
             (Z.of_nat (spec_total_words "assistant"
                          (conversation_history character)))
             (Z.of_nat (length (conversation_history character))))
   /\ AIConversationAnalyzer.get_conversation_stats w character
        !! "total_conversation"
      = Some (VInt (Z.of_nat (length (conversation_history character)))))
  /\ (conversation_history character = [] ->
      AIConversationAnalyzer.get_conversation_stats w character
      = {[ "total" := VInt 0; "message" := VStr (py "暂无对话记录") ]}
      /\ AIConversationAnalyzer.get_conversation_stats w character
           !! "avg_user_words" = None
      /\ AIConversationAnalyzer.get_conversation_stats w character
           !! "avg_assistant_words" = None).
Proof.
  unfold AIConversationAnalyzer.get_conversation_stats. split.
  - intros Hne. rewrite bool_decide_eq_false_2 by done. cbn [negb].
    assert (Hpos : (0 <? Z.of_nat (length (conversation_history character)))%Z
                   = true).
    { apply Z.ltb_lt. destruct (conversation_history character); [done|].
      simpl. lia. }
    rewrite Hpos, !total_words_spec. split.
    + rewrite !lookup_insert_ne by discriminate. apply lookup_insert_eq.
    + apply lookup_insert_eq.
  - intros ->. rewrite bool_decide_eq_true_2 by done. done.
Qed.

Lemma stats_assistant_average_witness :
  let character := snd (AICharacter.speak w_sample (py "hello there") alice) in
  AIConversationAnalyzer.get_conversation_stats w_sample character
    !! "avg_assistant_words"
  = Some (VRound2
            (Z.of_nat (spec_total_words "assistant"
                         (conversation_history character)))
            (Z.of_nat (length (conversation_history character))))
  /\ AIConversationAnalyzer.get_conversation_stats w_sample character
       !! "total_conversation"
     = Some (VInt (Z.of_nat (length (conversation_history character)))).
Proof.
  apply (proj1 (stats_assistant_average w_sample
                  (snd (AICharacter.speak w_sample (py "hello there") alice)))).
  discriminate.
Defined.

(** C5, as stated, fails twice.  After one exchange whose input has 2
    words the average of the inputs is reported as [round(0 / 1, 2)], the
    loop reading the key [users] that no record has; and for an empty
    ledger no average is reported at all. *)
Lemma stats_user_average_lost :
  let character := snd (AICharacter.speak w_sample (py "hello there") alice) in
  (exists conv : record,
      conversation_history character = [conv]
      /\ conv !! "user" = Some (py "hello there")
      /\ spec_total_words "user" (conversation_history character) = 2%nat)
  /\ AIConversationAnalyzer.get_conversation_stats w_sample character
       !! "avg_user_words" = Some (VRound2 0 1)
  /\ AIConversationAnalyzer.get_conversation_stats w_sample alice
       !! "avg_user_words" = None
  /\ AIConversationAnalyzer.get_conversation_stats w_sample alice
       !! "avg_assistant_words" = None.
Proof.
  split; [eexists; split; [reflexivity|]; split; reflexivity|].
  split; [reflexivity|]. split; reflexivity.
Qed.

(** C7 fails on the code: [export_conversations] calls the record,
    [conv('timestamp')], where it means to index it, so on every ledger
    that is not empty it raises a [TypeError] whatever the bounds; only the
    empty ledger is exported, as the empty list. *)
Theorem export_conversations_raises (w : World) (character : AICharacter)
        (start_date end_date : option pystr) :
  conversation_history character <> [] ->
  AIConversationAnalyzer.export_conversations w character start_date end_date
  = Raise (TypeError "'dict' object is not callable").
Proof.
  intros Hne. unfold AIConversationAnalyzer.export_conversations.
  rewrite bool_decide_eq_false_2 by done.
  by destruct (conversation_history character).
Qed.

Lemma export_conversations_raises_witness :
  AIConversationAnalyzer.export_conversations w_sample
    (snd (AICharacter.speak w_sample (py "hello there") alice)) None None
  = Raise (TypeError "'dict' object is not callable").
Proof. apply export_conversations_raises. discriminate. Defined.

Lemma export_conversations_empty (w : World) (character : AICharacter)
      (start_date end_date : option pystr) :
  conversation_history character = [] ->
  AIConversationAnalyzer.export_conversations w character start_date end_date
  = Ok [].
Proof.
  intros H. unfold AIConversationAnalyzer.export_conversations.
  by rewrite bool_decide_eq_true_2.
Qed.

(** ** The batch processor *)

(** When the first call of [speak] fails, the handler reads [response]
    before anything was assigned to it, and the batch stops there. *)
Lemma batch_converse_first_failure (ws : nat -> World) (c c' : character)
      (rest : list character) (message : pystr) (e : exn) :
  speak (ws 0%nat) message c = (Raise e, c') ->
  AIConversationBatchProcessor.batch_converse ws (c :: rest) message
  = (Raise (UnboundLocalError "response"), c' :: rest).
Proof.
  intros H. unfold AIConversationBatchProcessor.batch_converse. simpl.
  by rewrite H.
Qed.

(** A later failure is recorded with the reply of the last character that
    answered, and the loop goes on. *)
Lemma batch_loop_stale_response (ws : nat -> World) (i : nat)
      (c c' : character) (rest : list character) (message stale : pystr)
      (e : exn) (results : gmap pystr (gmap string pyval)) :
  speak (ws i) message c = (Raise e, c') ->
  AIConversationBatchProcessor.batch_loop ws i message (c :: rest)
    (Some stale) results
  = (let (out, rest') :=
       AIConversationBatchProcessor.batch_loop ws (S i) message rest
         (Some stale)
         (<[AICharacter.name (as_base c') :=
              {[ "response" := VStr stale; "success" := VBool false ]}]>
            results) in
     (out, c' :: rest')).
Proof. intros H. simpl. by rewrite H. Qed.

(** C6 fails on the code.  A blank message is refused by a plain character
    and accepted by a reviewer, whose prefix makes it non-blank.  With the
    plain character first, [batch_converse] raises [UnboundLocalError] and
    gives no result for anyone; with the reviewer first, the failure of
    the plain character is recorded with the reply of the reviewer. *)
Theorem batch_converse_failure_sample :
  AIConversationBatchProcessor.batch_converse (fun _ => w_sample)
    [Base alice; Advanced rex] (py " ")
  = (Raise (UnboundLocalError "response"), [Base alice; Advanced rex])
  /\ exists (results : gmap pystr (gmap string pyval)) (rex_said : pystr),
      fst (AIConversationBatchProcessor.batch_converse (fun _ => w_sample)
             [Advanced rex; Base alice] (py " ")) = Ok results
      /\ fst (speak w_sample (py " ") (Advanced rex)) = Ok rex_said
      /\ is_ok (fst (speak w_sample (py " ") (Base alice))) = false
      /\ results !! py "Rex"
         = Some {[ "response" := VStr rex_said; "success" := VBool true ]}
      /\ results !! py "Alice"
         = Some {[ "response" := VStr rex_said; "success" := VBool false ]}.
Proof.
  split; [reflexivity|].
  eexists _, _. split; [reflexivity|]. split; [reflexivity|].
  split; [reflexivity|]. split; reflexivity.
Qed.

(** ** Merging in the store *)

Lemma bind_ok {S A B} (m : M S A) (k : A -> M S B) (s s' : S) (a : A) :
  m s = (Ok a, s') -> bind m k s = k a s'.
Proof. unfold bind. by intros ->. Qed.

Lemma new_list_run (items : list record) (h : Heap.heap) :
  exists l : Heap.loc,
    Heap.new_list items h
    = (Ok l, {| Heap.lists := <[l := items]> (Heap.lists h);
                Heap.objects := Heap.objects h |})
    /\ Heap.lists h !! l = None.
Proof.
  eexists. split; [reflexivity|]. apply not_elem_of_dom, is_fresh.
Qed.

Lemma new_object_run (o : Heap.object) (h : Heap.heap) :
  exists p : Heap.loc,
    Heap.new_object o h
    = (Ok p, {| Heap.lists := Heap.lists h;
                Heap.objects := <[p := o]> (Heap.objects h) |})
    /\ Heap.objects h !! p = None.
Proof.
  eexists. split; [reflexivity|]. apply not_elem_of_dom, is_fresh.
Qed.

(** A construction that passes the checks puts a new empty list and a new
    object in the store. *)
Lemma init_run (w : World) (name system_prompt model : pystr)
      (c : AICharacter) (h : Heap.heap) :
  AICharacter.__init__ w name system_prompt model = Ok c ->
  exists p l : Heap.loc,
    Heap.__init__ w name system_prompt model h
    = (Ok p, {| Heap.lists := <[l := conversation_history c]> (Heap.lists h);
                Heap.objects := <[p := Heap.object_of c l]> (Heap.objects h) |})
    /\ Heap.lists h !! l = None /\ Heap.objects h !! p = None.
Proof.
  intros Hc. unfold Heap.__init__.
  destruct (new_list_run (conversation_history c) h) as (l & Hl & Hfl).
  destruct (new_object_run (Heap.object_of c l)
              {| Heap.lists := <[l := conversation_history c]> (Heap.lists h);
                 Heap.objects := Heap.objects h |}) as (p & Hp & Hfp).
  exists p, l.
  rewrite (bind_ok _ _ h h c) by (unfold lift; by rewrite Hc).
  rewrite (bind_ok _ _ _ _ _ Hl). rewrite Hp. done.
Qed.

(** The run of [a + b] on two characters of the store. *)
Lemma add_run (w : World) (h : Heap.heap) (a b : Heap.loc)
      (oa ob : Heap.object) (la lb : list record) :
  Heap.objects h !! a = Some oa ->
  Heap.objects h !! b = Some ob ->
  Heap.lists h !! Heap.conversation_history_ref oa = Some la ->
  Heap.lists h !! Heap.conversation_history_ref ob = Some lb ->
  exists (p l0 l : Heap.loc) (c : AICharacter),
    AICharacter.__init__ w (Heap.name_attr oa ++ py "&" ++ Heap.name_attr ob)
      (py "merged Character") DEFAULT_MODEL = Ok c
    /\ Heap.objects h !! p = None
    /\ Heap.lists h !! l0 = None /\ Heap.lists h !! l = None /\ l <> l0
    /\ Heap.__add__ w a (Heap.Ref b) h
       = (Ok p,
          {| Heap.lists := <[l := la ++ lb]> (<[l0 := []]> (Heap.lists h));
             Heap.objects := <[p := Heap.object_of c l]>
                               (<[p := Heap.object_of c l0]> (Heap.objects h)) |}).
Proof.
  intros Ha Hb Hla Hlb.
  assert (Hc : exists c, AICharacter.__init__ w
                 (Heap.name_attr oa ++ py "&" ++ Heap.name_attr ob)
                 (py "merged Character") DEFAULT_MODEL = Ok c
               /\ conversation_history c = []) by (eexists; split; reflexivity).
  destruct Hc as (c & Hc & Hnil).
  destruct (init_run w _ _ _ c h Hc) as (p & l0 & Hinit & Hl0 & Hp).
  rewrite Hnil in Hinit.
  set (h1 := {| Heap.lists := <[l0 := []]> (Heap.lists h);
                Heap.objects := <[p := Heap.object_of c l0]> (Heap.objects h) |})
    in *.
  destruct (new_list_run (la ++ lb) h1) as (l & Hnew & Hl).
  cbn [Heap.lists h1] in Hl. apply lookup_insert_None in Hl as [Hl Hne].
  assert (l0 <> Heap.conversation_history_ref oa) by congruence.
  assert (l0 <> Heap.conversation_history_ref ob) by congruence.
  exists p, l0, l, c. repeat (split; [done|]).
  unfold Heap.__add__.
  rewrite (bind_ok _ _ h h oa) by (unfold Heap.get_object; by rewrite Ha).
  rewrite (bind_ok _ _ h h ob) by (unfold Heap.get_object; by rewrite Hb).
  rewrite (bind_ok _ _ _ _ _ Hinit).
  rewrite (bind_ok _ _ h1 h1 la)
    by (unfold Heap.get_list; cbn [Heap.lists h1];
        by rewrite lookup_insert_ne, Hla).
  rewrite (bind_ok _ _ h1 h1 lb)
    by (unfold Heap.get_list; cbn [Heap.lists h1];
        by rewrite lookup_insert_ne, Hlb).
  rewrite (bind_ok _ _ _ _ _ Hnew).
  unfold Heap.set_history_ref, bind, Heap.get_object, modify, ret.
  cbn [Heap.objects Heap.lists h1]. by rewrite lookup_insert_eq.
Qed.

(** C9. [a + b] changes neither operand: in the store after the merge the
    two characters have the attributes they had, the name among them, and
    their lists hold the records they held.  The merged character is a new
    object and its list is at an address that held no list before, so it
    is neither the list of [a] nor the list of [b]; it holds the records
    of [a] followed by those of [b]. *)
Theorem add_leaves_operands (w : World) (h : Heap.heap) (a b : Heap.loc)
        (oa ob : Heap.object) (la lb : list record) :
  Heap.objects h !! a = Some oa ->
  Heap.objects h !! b = Some ob ->
  Heap.lists h !! Heap.conversation_history_ref oa = Some la ->
  Heap.lists h !! Heap.conversation_history_ref ob = Some lb ->
  exists (merged : Heap.loc) (om : Heap.object) (h' : Heap.heap),
    Heap.__add__ w a (Heap.Ref b) h = (Ok merged, h')
    /\ Heap.objects h' !! a = Some oa
    /\ Heap.objects h' !! b = Some ob
    /\ Heap.lists h' !! Heap.conversation_history_ref oa = Some la
    /\ Heap.lists h' !! Heap.conversation_history_ref ob = Some lb
    /\ Heap.objects h' !! merged = Some om
    /\ Heap.objects h !! merged = None
    /\ Heap.lists h !! Heap.conversation_history_ref om = None
    /\ Heap.conversation_history_ref om <> Heap.conversation_history_ref oa
    /\ Heap.conversation_history_ref om <> Heap.conversation_history_ref ob
    /\ Heap.lists h' !! Heap.conversation_history_ref om = Some (la ++ lb)
    /\ Heap.name_attr om = Heap.name_attr oa ++ py "&" ++ Heap.name_attr ob.
Proof.
  intros Ha Hb Hla Hlb.
  destruct (add_run w h a b oa ob la lb Ha Hb Hla Hlb)
    as (p & l0 & l & c & Hc & Hp & Hl0 & Hl & Hne & Hrun).
  assert (l0 <> Heap.conversation_history_ref oa) by congruence.
  assert (l0 <> Heap.conversation_history_ref ob) by congruence.
  assert (l <> Heap.conversation_history_ref oa) by congruence.
  assert (l <> Heap.conversation_history_ref ob) by congruence.
  assert (p <> a) by congruence. assert (p <> b) by congruence.
  assert (Hname : _name c = Heap.name_attr oa ++ py "&" ++ Heap.name_attr ob)
    by (injection Hc as <-; reflexivity).
  eexists p, (Heap.object_of c l), _. split; [exact Hrun|].
  cbn [Heap.objects Heap.lists Heap.conversation_history_ref Heap.name_attr
       Heap.object_of].
  rewrite !lookup_insert_eq. rewrite !lookup_insert_ne by done.
  repeat split; done.
Qed.

Lemma add_leaves_operands_witness :
  exists (merged : Heap.loc) (om : Heap.object) (h' : Heap.heap),
    Heap.__add__ w_sample 1%positive (Heap.Ref 2%positive) h_sample
    = (Ok merged, h')
    /\ Heap.objects h' !! 1%positive = Some (Heap.object_of alice 1%positive)
    /\ Heap.objects h' !! 2%positive = Some (Heap.object_of bob 2%positive)
    /\ Heap.lists h' !! 1%positive = Some [greeting (py "a")]
    /\ Heap.lists h' !! 2%positive = Some [greeting (py "b")]
    /\ Heap.objects h' !! merged = Some om
    /\ Heap.objects h_sample !! merged = None
    /\ Heap.lists h_sample !! Heap.conversation_history_ref om = None
    /\ Heap.conversation_history_ref om <> 1%positive
    /\ Heap.conversation_history_ref om <> 2%positive
    /\ Heap.lists h' !! Heap.conversation_history_ref om
       = Some ([greeting (py "a")] ++ [greeting (py "b")])
    /\ Heap.name_attr om = py "Alice" ++ py "&" ++ py "Bob".
Proof.
  apply (add_leaves_operands w_sample h_sample 1%positive 2%positive
           (Heap.object_of alice 1%positive) (Heap.object_of bob 2%positive)
           [greeting (py "a")] [greeting (py "b")]); reflexivity.
Defined.

(** Read back as values, the merge in the store is the merge of the
    values. *)
Lemma add_refines (w : World) (h : Heap.heap) (a b : Heap.loc)
      (ca cb : AICharacter) :
  Heap.read h a = Some ca -> Heap.read h b = Some cb ->
  exists (merged : Heap.loc) (h' : Heap.heap) (cm : AICharacter),
    Heap.__add__ w a (Heap.Ref b) h = (Ok merged, h')
    /\ AICharacter.__add__ w ca (ObjCharacter (Base cb)) = Ok cm
    /\ Heap.read h' merged = Some cm
    /\ Heap.read h' a = Some ca /\ Heap.read h' b = Some cb.
Proof.
  unfold Heap.read at 1 2. intros Hra Hrb.
  destruct (Heap.objects h !! a) as [oa|] eqn:Ha; [|done].
  destruct (Heap.objects h !! b) as [ob|] eqn:Hb; [|done].
  simpl in Hra, Hrb.
  destruct (Heap.lists h !! Heap.conversation_history_ref oa) as [la|] eqn:Hla;
    [|done].
  destruct (Heap.lists h !! Heap.conversation_history_ref ob) as [lb|] eqn:Hlb;
    [|done].
  simpl in Hra, Hrb. injection Hra as <-. injection Hrb as <-.
  destruct (add_run w h a b oa ob la lb Ha Hb Hla Hlb)
    as (p & l0 & l & c & Hc & Hp & Hl0 & Hl & Hne & Hrun).
  assert (l0 <> Heap.conversation_history_ref oa) by congruence.
  assert (l0 <> Heap.conversation_history_ref ob) by congruence.
  assert (l <> Heap.conversation_history_ref oa) by congruence.
  assert (l <> Heap.conversation_history_ref ob) by congruence.
  assert (p <> a) by congruence. assert (p <> b) by congruence.
  eexists p, _, _. split; [exact Hrun|].
  unfold AICharacter.__add__, AICharacter.name. cbn [as_base _name].
  rewrite Hc. split; [reflexivity|].
  unfold Heap.read. cbn [Heap.objects Heap.lists].
  rewrite !lookup_insert_eq. rewrite !lookup_insert_ne by done.
  rewrite Ha, Hb. simpl.
  rewrite !lookup_insert_eq. rewrite !lookup_insert_ne by done.
  rewrite Hla, Hlb. simpl. injection Hc as <-. done.
Qed.

Example add_in_store_sample :
  fst (Heap.__add__ w_sample 1%positive (Heap.Ref 2%positive) h_sample)
  = Ok 3%positive.
Proof. reflexivity. Qed.

(** * More properties of the code *)

#[local] Set Warnings "-clear-no-such-hyp".

(** ** The rule engine *)

Lemma has_brace_app (a b : pystr) :
  has_brace (a ++ b) = has_brace a || has_brace b.
Proof. apply existsb_app. Qed.

Lemma rule_response_plain (name : pystr) :
  has_brace name = false -> rules_plain (AICharacter.rule_response name).
Proof.
  intros Hname. unfold rules_plain, AICharacter.rule_response.
  repeat first [apply List.Forall_cons | apply List.Forall_nil | split];
    cbn [snd]; try discriminate;
    rewrite ?has_brace_app, ?Hname; reflexivity.
Qed.

Lemma random_choice_elem {A} (w : World) (l : list A) :
  l <> [] -> exists x, random_choice w l = Ok x /\ x ∈ l.
Proof.
  intros Hne. unfold random_choice.
  destruct (lookup_lt_is_Some_2 l (choice_index w mod length l)%nat) as [x Hx].
  { apply Nat.mod_upper_bound. by destruct l. }
  rewrite Hx. exists x. split; [done|]. by eapply list_elem_of_lookup_2.
Qed.

Lemma match_rules_none (w : World) (name text : pystr)
      (rules : list (pystr * list pystr)) :
  first_rule text rules = None ->
  AICharacter.match_rules w name text rules = Ok None.
Proof.
  unfold first_rule. induction rules as [|[kw rs] rest IH]; simpl; [done|].
  destruct (contains text kw); [done | auto].
Qed.

Lemma match_rules_some (w : World) (name text kw : pystr) (rs : list pystr)
      (rules : list (pystr * list pystr)) :
  rules_plain rules ->
  first_rule text rules = Some (kw, rs) ->
  exists r, AICharacter.match_rules w name text rules = Ok (Some r)
            /\ random_choice w rs = Ok r /\ r ∈ rs.
Proof.
  unfold first_rule, rules_plain.
  induction rules as [|[kw0 rs0] rest IH]; simpl; [done|].
  intros Hplain. apply Forall_cons in Hplain as [[Hne Hbr] Hrest].
  destruct (contains text kw0).
  - intros [= -> ->]. simpl in Hne, Hbr.
    destruct (random_choice_elem w rs Hne) as (r & Hr & Hin).
    exists r. rewrite Hr. unfold str_format.
    rewrite Forall_forall in Hbr. by rewrite (Hbr r Hin).
  - auto.
Qed.

Lemma match_rules_total (w : World) (name text : pystr) :
  has_brace name = false ->
  exists m, AICharacter.match_rules w name text (AICharacter.rule_response name)
            = Ok m.
Proof.
  intros Hname.
  destruct (first_rule text (AICharacter.rule_response name)) as [[kw rs]|] eqn:E.
  - destruct (match_rules_some w name text kw rs _
                (rule_response_plain name Hname) E) as (r & Hr & _). eauto.
  - rewrite (match_rules_none w name text _ E). eauto.
Qed.

Lemma speak_ok_inv (w : World) (text : pystr) (self : AICharacter) :
  is_ok (fst (AICharacter.speak w text self)) = true ->
  strip text <> [] /\ (len text <= 1000)%Z.
Proof.
  unfold AICharacter.speak, AICharacter.validate_input.
  destruct (strip text) eqn:Hs; cbn [truthy negb]; [done|].
  destruct (1000 <? len text)%Z eqn:Hl; [done|].
  intros _. split; [done | by apply Z.ltb_ge].
Qed.

(** X1. For a character whose name has no brace, [AICharacter.speak]
    returns a reply exactly when the text is not blank and has at most
    1000 characters: the two tests of the decorator are the only way to
    fail. *)
Theorem speak_accepts_iff (w : World) (text : pystr) (self : AICharacter) :
  has_brace (AICharacter.name self) = false ->
  is_ok (fst (AICharacter.speak w text self)) = true
  <-> strip text <> [] /\ (len text <= 1000)%Z.
Proof.
  intros Hname. split; [apply speak_ok_inv|].
  - intros [Hne Hlen].
    destruct (match_rules_total w (AICharacter.name self) text Hname) as [m Hm].
    by rewrite (speak_runs w text self m Hne Hlen Hm).
Qed.

Lemma speak_accepts_iff_witness :
  is_ok (fst (AICharacter.speak w_sample (py "你好") alice)) = true
  <-> strip (py "你好") <> [] /\ (len (py "你好") <= 1000)%Z.
Proof. apply speak_accepts_iff. reflexivity. Defined.

(** X2. When none of the keywords of the table occurs in an accepted
    text, the reply is the fallback sentence built from the name and the
    text, whatever the random source and whatever the name; the record
    appended holds the text and that reply. *)
Theorem speak_fallback (w : World) (text : pystr) (self : AICharacter) :
  strip text <> [] -> (len text <= 1000)%Z ->
  first_rule text (AICharacter.rule_response (AICharacter.name self)) = None ->
  AICharacter.speak w text self
  = (Ok (AICharacter.fallback_response (AICharacter.name self) text),
     set_conversation_history
       (conversation_history self
          ++ [AICharacter.conversation_record w text
                (AICharacter.fallback_response (AICharacter.name self) text)
                (model self)]) self).
Proof.
  intros Hne Hlen Hnone.
  apply (speak_runs w text self None Hne Hlen).
  by apply match_rules_none.
Qed.

Lemma speak_fallback_witness :
  AICharacter.speak w_sample (py "x = 1") alice
  = (Ok (AICharacter.fallback_response (AICharacter.name alice) (py "x = 1")),
     set_conversation_history
       (conversation_history alice
          ++ [AICharacter.conversation_record w_sample (py "x = 1")
                (AICharacter.fallback_response (AICharacter.name alice)
                   (py "x = 1"))
                (model alice)]) alice).
Proof.
  apply speak_fallback; [discriminate | vm_compute; discriminate | reflexivity].
Defined.

(** X3. The first keyword of the table that occurs in the text decides:
    for a name without brace and an accepted text, the reply is the entry
    that [random.choice] draws from the reply list of that keyword, so it
    is one of that list even when later keywords occur too. *)
Theorem speak_first_keyword_wins (w : World) (text kw : pystr)
        (responses : list pystr) (self : AICharacter) :
  has_brace (AICharacter.name self) = false ->
  strip text <> [] -> (len text <= 1000)%Z ->
  first_rule text (AICharacter.rule_response (AICharacter.name self))
  = Some (kw, responses) ->
  exists reply : pystr,
    fst (AICharacter.speak w text self) = Ok reply
    /\ random_choice w responses = Ok reply
    /\ reply ∈ responses
    /\ conversation_history (snd (AICharacter.speak w text self))
       = conversation_history self
           ++ [AICharacter.conversation_record w text reply (model self)].
Proof.
  intros Hname Hne Hlen Hfirst.
  destruct (match_rules_some w (AICharacter.name self) text kw responses _
              (rule_response_plain _ Hname) Hfirst) as (r & Hr & Hch & Hin).
  exists r. by rewrite (speak_runs w text self (Some r) Hne Hlen Hr).
Qed.

Lemma speak_first_keyword_wins_witness :
  exists reply : pystr,
    fst (AICharacter.speak w_sample (py "你好，今天天气怎么样") alice) = Ok reply
    /\ random_choice w_sample [py "你好呀"; py "嗨！很高兴见到你";
                               py "你好，请问有什么可以帮您"] = Ok reply
    /\ reply ∈ [py "你好呀"; py "嗨！很高兴见到你";
                py "你好，请问有什么可以帮您"]
    /\ conversation_history
         (snd (AICharacter.speak w_sample (py "你好，今天天气怎么样") alice))
       = conversation_history alice
           ++ [AICharacter.conversation_record w_sample
                 (py "你好，今天天气怎么样") reply (model alice)].
Proof.
  apply (speak_first_keyword_wins w_sample (py "你好，今天天气怎么样")
           (py "你好")); [reflexivity | discriminate | vm_compute; discriminate
                          | reflexivity].
Defined.

(** ** One exchange, for both classes *)

Lemma speak_fail_unchanged (w : World) (text : pystr) (self self' : AICharacter)
      (e : exn) :
  AICharacter.speak w text self = (Raise e, self') -> self' = self.
Proof.
  unfold AICharacter.speak, AICharacter.validate_input.
  destruct (negb (truthy (strip text))); [by intros [=]|].
  destruct (1000 <? len text)%Z; [by intros [=]|].
  unfold AICharacter.speak_body, bind, get, lift, modify, ret.
  destruct (AICharacter.match_rules _ _ _ _) as [m|e']; by intros [=].
Qed.

Lemma set_super_same (self : AdvancedAICharacter) :
  set_super (super self) self = self.
Proof. by destruct self. Qed.

(** The override, step by step: what it returns and leaves behind, from
    what the method of the parent returns on the prefixed text. *)
Lemma advanced_speak_run (w : World) (text : pystr)
      (self : AdvancedAICharacter) :
  AdvancedAICharacter.speak w text self
  = match AICharacter.speak w (prefixed self text) (super self) with
    | (Ok raw, _) =>
      let reply := AdvancedAICharacter._format_response_by_role self raw in
      (Ok reply,
       {| super :=
            set_conversation_history
              (conversation_history (super self)
                 ++ [<["assistant" := reply]>
                       (AICharacter.conversation_record w (prefixed self text)
                          raw (model (super self)))])
              (super self);
          role := role self;
          token_used :=
            (token_used self
             + (Z.of_nat (word_count (prefixed self text))
                + Z.of_nat (word_count raw)))%Z;
          skills := skills self;
          _performance_score := _performance_score self |})
    | (Raise e, _) => (Raise e, self)
    end.
Proof.
  unfold AdvancedAICharacter.speak, bind, get.
  change (if bool_decide (role self = py "tutor")
          then py "【学生提问】" ++ text
          else if bool_decide (role self = py "reviewer")
               then py "【代码审查】" ++ text else text)
    with (prefixed self text).
  unfold AdvancedAICharacter.on_super at 1.
  destruct (AICharacter.speak w (prefixed self text) (super self))
    as [[raw|e] s0] eqn:Hbase.
  - apply speak_inv in Hbase as ->.
    unfold AdvancedAICharacter.update_token_usage, modify, ret,
      AdvancedAICharacter.on_super.
    unfold set_super, set_token_used, set_conversation_history.
    cbn [super token_used conversation_history role skills _performance_score].
    rewrite bool_decide_eq_false_2 by (intros [_ [=]]%app_eq_nil).
    cbn [negb].
    cbn [super token_used conversation_history role skills _performance_score
         _name _system_prompt model created_at __api_key __rate_limit].
    rewrite set_last_assistant_snoc.
    unfold AdvancedAICharacter._format_response_by_role. cbn [role].
    reflexivity.
  - apply speak_fail_unchanged in Hbase as ->. by rewrite set_super_same.
Qed.

Lemma conversation_record_lookups (w : World) (text reply m : pystr) :
  let conv := AICharacter.conversation_record w text reply m in
  conv !! "timestamp" = Some (isoformat w (now w))
  /\ conv !! "user" = Some text
  /\ conv !! "assistant" = Some reply
  /\ conv !! "model" = Some m.
Proof.
  unfold AICharacter.conversation_record. cbn zeta.
  repeat split;
    repeat first [ apply lookup_insert_eq
                 | apply lookup_singleton_eq
                 | rewrite lookup_insert_ne by discriminate ].
Qed.

Lemma conversation_record_complete (w : World) (text reply m : pystr) :
  record_complete (AICharacter.conversation_record w text reply m).
Proof.
  unfold record_complete, AICharacter.conversation_record.
  rewrite !dom_insert_L, dom_singleton_L. set_solver.
Qed.

Lemma record_complete_insert (conv : record) (v : pystr) :
  record_complete conv -> record_complete (<["assistant" := v]> conv).
Proof. unfold record_complete. rewrite dom_insert_L. set_solver. Qed.

Lemma record_complete_lookup (conv : record) :
  record_complete conv ->
  exists timestamp user assistant,
    conv !! "timestamp" = Some timestamp /\ conv !! "user" = Some user
    /\ conv !! "assistant" = Some assistant.
Proof.
  intros H.
  assert (Hk : forall k : string,
             k ∈ ({[ "timestamp"; "user"; "assistant"; "model" ]} : gset string)
             -> is_Some (conv !! k)).
  { intros k Hin. apply elem_of_dom. unfold record_complete in H.
    by rewrite H. }
  destruct (Hk "timestamp") as [t Ht]; [set_solver|].
  destruct (Hk "user") as [u Hu]; [set_solver|].
  destruct (Hk "assistant") as [a Ha]; [set_solver|].
  eauto 10.
Qed.

(** What a call that returns leaves in the ledger, and what a call that
    raises leaves of the character. *)
Lemma speak_ok_ledger (w : World) (text reply : pystr) (c c' : character) :
  speak w text c = (Ok reply, c') ->
  exists conv : record,
    ledger c' = ledger c ++ [conv]
    /\ record_complete conv
    /\ conv !! "assistant" = Some reply
    /\ conv !! "user" = Some (seen_text c text)
    /\ conv !! "timestamp" = Some (isoformat w (now w)).
Proof.
  destruct c as [b|a]; unfold speak, ledger, seen_text.
  - destruct (AICharacter.speak w text b) as [[r|e] b'] eqn:Hb; [|done].
    intros [= <- <-]. apply speak_inv in Hb as ->. cbn [as_base].
    eexists. split; [reflexivity|].
    split; [apply conversation_record_complete|].
    destruct (conversation_record_lookups w text r (model b))
      as (? & ? & ? & ?). done.
  - rewrite advanced_speak_run.
    destruct (AICharacter.speak w (prefixed a text) (super a))
      as [[raw|e] s0]; [|done].
    intros [= <- <-]. cbn [as_base super].
    eexists. split; [reflexivity|].
    split; [apply record_complete_insert, conversation_record_complete|].
    destruct (conversation_record_lookups w (prefixed a text) raw
                (model (super a))) as (? & ? & ? & ?).
    rewrite lookup_insert_eq. rewrite !lookup_insert_ne by discriminate. done.
Qed.

Lemma speak_raise_same (w : World) (text : pystr) (c c' : character) (e : exn) :
  speak w text c = (Raise e, c') -> c' = c.
Proof.
  destruct c as [b|a]; unfold speak.
  - destruct (AICharacter.speak w text b) as [[r|e'] b'] eqn:Hb; [done|].
    intros [= <- <-]. by apply speak_fail_unchanged in Hb as ->.
  - rewrite advanced_speak_run.
    destruct (AICharacter.speak w (prefixed a text) (super a))
      as [[raw|e'] s0]; [done|]. by intros [= <- <-].
Qed.

Lemma speak_same_name (w : World) (text : pystr) (c : character) :
  AICharacter.name (as_base (snd (speak w text c)))
  = AICharacter.name (as_base c).
Proof.
  destruct (speak w text c) as [[reply|e] c'] eqn:Hrun; cbn [snd].
  - destruct c as [b|a]; unfold speak in Hrun.
    + destruct (AICharacter.speak w text b) as [[r|e] b'] eqn:Hb; [|done].
      injection Hrun as <- <-. by apply speak_inv in Hb as ->.
    + rewrite advanced_speak_run in Hrun.
      destruct (AICharacter.speak w (prefixed a text) (super a))
        as [[raw|e] s0]; [|done]. by injection Hrun as <- <-.
  - by apply speak_raise_same in Hrun as ->.
Qed.

(** X4. The ledger only grows at its end.  A call of [speak] on a
    character of either class that returns appends exactly one record,
    which holds the reply returned under [assistant], the text that the
    engine saw under [user], the model of the character and the time of
    the call; a call that raises leaves the character as it was. *)
Theorem speak_appends_one_record (w : World) (text : pystr) (c : character) :
  match fst (speak w text c) with
  | Ok reply =>
    exists conv : record,
      ledger (snd (speak w text c)) = ledger c ++ [conv]
      /\ conv !! "assistant" = Some reply
      /\ conv !! "user" = Some (seen_text c text)
      /\ conv !! "model" = Some (model (as_base c))
      /\ conv !! "timestamp" = Some (isoformat w (now w))
  | Raise _ => snd (speak w text c) = c
  end.
Proof.
  destruct c as [b|a]; unfold speak, ledger, seen_text.
  - destruct (AICharacter.speak w text b) as [[reply|e] b'] eqn:Hb;
      cbn [fst snd as_base].
    + apply speak_inv in Hb as ->. eexists. split; [reflexivity|].
      destruct (conversation_record_lookups w text reply (model b))
        as (? & ? & ? & ?). done.
    + by apply speak_fail_unchanged in Hb as ->.
  - rewrite advanced_speak_run.
    destruct (AICharacter.speak w (prefixed a text) (super a))
      as [[raw|e] s0]; cbn [fst snd as_base super]; [|done].
    eexists. split; [reflexivity|].
    destruct (conversation_record_lookups w (prefixed a text) raw
                (model (super a))) as (? & ? & ? & ?).
    rewrite lookup_insert_eq. rewrite !lookup_insert_ne by discriminate. done.
Qed.

(** X5. [speak] changes the ledger and the token count and nothing else:
    name, system prompt, model, creation time, credential and rate limit,
    and for the subclass role, skills and performance score, are after
    the call what they were before, whether it returns or raises. *)
Theorem speak_keeps_profile (w : World) (text : pystr) (c : character) :
  profile (snd (speak w text c)) = profile c.
Proof.
  destruct c as [b|a]; unfold speak.
  - destruct (AICharacter.speak w text b) as [[reply|e] b'] eqn:Hb;
      cbn [snd].
    + by apply speak_inv in Hb as ->.
    + by apply speak_fail_unchanged in Hb as ->.
  - rewrite advanced_speak_run.
    by destruct (AICharacter.speak w (prefixed a text) (super a))
      as [[raw|e] s0].
Qed.

(** X6. With a role that is neither [tutor] nor [reviewer] the override
    answers as the parent class does: same outcome, and the same
    attributes of the parent afterwards, the record included; only
    [token_used] is counted on top. *)
Theorem plain_role_speaks_as_base (w : World) (text : pystr)
        (self : AdvancedAICharacter) :
  role self <> py "tutor" -> role self <> py "reviewer" ->
  fst (AdvancedAICharacter.speak w text self)
  = fst (AICharacter.speak w text (super self))
  /\ super (snd (AdvancedAICharacter.speak w text self))
     = snd (AICharacter.speak w text (super self)).
Proof.
  intros Ht Hr. rewrite advanced_speak_run.
  unfold prefixed, AdvancedAICharacter._format_response_by_role.
  rewrite !(bool_decide_eq_false_2 (role self = py "tutor")) by done.
  rewrite !(bool_decide_eq_false_2 (role self = py "reviewer")) by done.
  destruct (AICharacter.speak w text (super self)) as [[raw|e] s0] eqn:Hb;
    cbn [fst snd super].
  - apply speak_inv in Hb as ->. split; [done|].
    rewrite insert_id; [done|].
    by destruct (conversation_record_lookups w text raw (model (super self)))
      as (_ & _ & ? & _).
  - by apply speak_fail_unchanged in Hb as ->.
Qed.

Lemma plain_role_speaks_as_base_witness :
  let helper := {| super := alice; role := py "assistant"; token_used := 0;
                   skills := []; _performance_score := 100 |} in
  fst (AdvancedAICharacter.speak w_sample (py "你好") helper)
  = fst (AICharacter.speak w_sample (py "你好") (super helper))
  /\ super (snd (AdvancedAICharacter.speak w_sample (py "你好") helper))
     = snd (AICharacter.speak w_sample (py "你好") (super helper)).
Proof. apply plain_role_speaks_as_base; discriminate. Defined.

(** X7. A tutor or a reviewer validates the text after its own prefix of
    6 characters is put in front: with a name without brace it answers
    exactly the texts of at most 994 characters, the empty and the blank
    ones among them, which the parent class refuses. *)
Theorem prefixed_role_accepts_iff (w : World) (text : pystr)
        (self : AdvancedAICharacter) :
  role self = py "tutor" \/ role self = py "reviewer" ->
  has_brace (AICharacter.name (super self)) = false ->
  is_ok (fst (AdvancedAICharacter.speak w text self)) = true
  <-> (len text <= 994)%Z.
Proof.
  intros Hrole Hname.
  assert (Hpre : exists tag, prefixed self text = tag ++ text
                             /\ length tag = 6%nat
                             /\ forallb is_space (tag ++ text) = false).
  { unfold prefixed. destruct Hrole as [-> | ->].
    - rewrite bool_decide_eq_true_2 by done. by eexists.
    - rewrite bool_decide_eq_false_2 by discriminate.
      rewrite bool_decide_eq_true_2 by done. by eexists. }
  destruct Hpre as (tag & Hpre & Htag & Hsp).
  assert (Hlen : len (prefixed self text) = (len text + 6)%Z).
  { rewrite Hpre. unfold len. rewrite length_app, Htag. lia. }
  assert (Hne : strip (prefixed self text) <> []).
  { rewrite Hpre. intros Hs%strip_nil_iff. congruence. }
  rewrite advanced_speak_run.
  destruct (AICharacter.speak w (prefixed self text) (super self))
    as [[raw|e] s0] eqn:Hb; cbn [fst is_ok].
  - split; [intros _|done].
    assert (Hok : is_ok (fst (AICharacter.speak w (prefixed self text)
                                (super self))) = true) by by rewrite Hb.
    apply speak_ok_inv in Hok as [_ Hok]. lia.
  - split; [done|]. intros Hshort.
    destruct (match_rules_total w (AICharacter.name (super self))
                (prefixed self text) Hname) as [m Hm].
    rewrite (speak_runs w _ (super self) m Hne) in Hb; [done | lia | done].
Qed.

Lemma prefixed_role_accepts_iff_witness :
  is_ok (fst (AdvancedAICharacter.speak w_sample (py "  ") rex)) = true
  <-> (len (py "  ") <= 994)%Z.
Proof. apply prefixed_role_accepts_iff; [by right | reflexivity]. Defined.

(** ** The other setters *)

(** X8. The setter of [system_prompt] stores a prompt that is not empty
    and has at most 1000 characters as it is given, untrimmed, so that a
    prompt of whitespace only is accepted; an empty prompt or one of more
    than 1000 characters raises a [ValueError] and the prompt stays. *)
Theorem system_prompt_setter_spec (value : pystr) (self : AICharacter) :
  (value <> [] /\ (len value <= 1000)%Z ->
   AICharacter.system_prompt_setter value self
   = (Ok tt, set__system_prompt value self)
   /\ AICharacter.get_system_prompt (set__system_prompt value self) = value)
  /\ (value = [] \/ (1000 < len value)%Z ->
      exists msg,
        AICharacter.system_prompt_setter value self
        = (Raise (ValueError msg), self)).
Proof.
  unfold AICharacter.system_prompt_setter. split.
  - intros [Hne Hlen]. destruct value; [done|]. cbn [truthy negb].
    apply Z.ltb_ge in Hlen. by rewrite Hlen.
  - intros [->|Hlong]; [cbn; eauto|].
    destruct (negb (truthy value)); [eauto|].
    apply Z.ltb_lt in Hlong. rewrite Hlong. eauto.
Qed.

Lemma system_prompt_setter_spec_witness :
  AICharacter.system_prompt_setter (py "   ") alice
  = (Ok tt, set__system_prompt (py "   ") alice)
  /\ AICharacter.get_system_prompt (set__system_prompt (py "   ") alice)
     = py "   ".
Proof.
  apply (proj1 (system_prompt_setter_spec (py "   ") alice)).
  split; [discriminate | vm_compute; discriminate].
Defined.

(** X9. The setter of [api_key] accepts a value exactly when it starts
    with [sk-], has at least 20 characters and holds no space; when it
    refuses, the character is left as it was, so an earlier credential
    stays and reads as before. *)
Theorem api_key_setter_accepts_iff (value : pystr) (self : AICharacter) :
  (is_ok (fst (AICharacter.api_key_setter value self)) = true
   <-> take 3 value = py "sk-" /\ (20 <= length value)%nat
       /\ (0x20 : pychar) ∉ value)
  /\ (is_ok (fst (AICharacter.api_key_setter value self)) = false ->
      snd (AICharacter.api_key_setter value self) = self).
Proof.
  unfold AICharacter.api_key_setter.
  pose proof (startswith_take value (py "sk-")) as Hsw.
  pose proof (contains_char value 0x20) as Hsp.
  change (length (py "sk-")) with 3%nat in Hsw.
  change [0x20] with (py " ") in Hsp.
  destruct (startswith value (py "sk-")); cbn [negb].
  2:{ split; [|done]. split; [done|]. intros (H & _). apply Hsw in H. done. }
  destruct (len value <? 20)%Z eqn:Hl.
  { split; [|done]. split; [done|]. apply Z.ltb_lt in Hl. unfold len in Hl.
    intros (_ & ? & _). lia. }
  destruct (contains value (py " ")).
  { split; [|done]. split; [done|]. intros (_ & _ & H). destruct H.
    by apply Hsp. }
  split; [|done]. split; [|done]. intros _.
  apply Z.ltb_ge in Hl. unfold len in Hl.
  repeat split; [by apply Hsw | lia |]. intros H%Hsp. done.
Qed.

(** ** Reading the ledger by index *)

Lemma list_getitem_nat {A} (l : list A) (k : nat) (x : A) :
  l !! k = Some x -> list_getitem l (Z.of_nat k) = Ok x.
Proof.
  intros Hk. pose proof (lookup_lt_Some _ _ _ Hk) as Hlt.
  unfold list_getitem.
  replace (Z.of_nat k <? 0)%Z with false by (symmetry; apply Z.ltb_ge; lia).
  replace ((0 <=? Z.of_nat k) && (Z.of_nat k <? Z.of_nat (length l)))%Z
    with true
    by (symmetry; apply andb_true_iff; split;
        [apply Z.leb_le | apply Z.ltb_lt]; lia).
  by rewrite Nat2Z.id, Hk.
Qed.

Lemma list_getitem_in_range {A} (l : list A) (i : Z) :
  (0 <= i < Z.of_nat (length l))%Z ->
  exists x, list_getitem l i = Ok x /\ l !! Z.to_nat i = Some x.
Proof.
  intros Hi.
  destruct (lookup_lt_is_Some_2 l (Z.to_nat i)) as [x Hx]; [lia|].
  exists x. split; [|done].
  rewrite <- (Z2Nat.id i) by lia. by apply list_getitem_nat.
Qed.



Lemma result_map_in_range {A} (l : list A) (indices : list Z) :
  Forall (fun i => (0 <= i < Z.of_nat (length l))%Z) indices ->
  exists xs, result_map (list_getitem l) indices = Ok xs
             /\ Forall (fun x => x ∈ l) xs
             /\ length xs = length indices.
Proof.
  induction 1 as [|i rest Hi _ (xs & Hxs & Hall & Hlen)]; simpl.
  - by exists [].
  - destruct (list_getitem_in_range l i Hi) as (x & Hx & Hlook).
    exists (x :: xs). rewrite Hx, Hxs. simpl. split; [done|].
    split; [|by rewrite Hlen].
    apply Forall_cons. split; [|done]. by eapply list_elem_of_lookup_2.
Qed.

Lemma clamp_index_forward (i n : Z) :
  (0 <= n)%Z -> (0 <= clamp_index i n 0 n <= n)%Z.
Proof.
  intros Hn. unfold clamp_index.
  destruct (i <? 0)%Z eqn:E; [apply Z.ltb_lt in E | apply Z.ltb_ge in E]; lia.
Qed.

Lemma clamp_index_backward (i n : Z) :
  (0 <= n)%Z -> (-1 <= clamp_index i n (-1) (n - 1) <= n - 1)%Z.
Proof.
  intros Hn. unfold clamp_index.
  destruct (i <? 0)%Z eqn:E; [apply Z.ltb_lt in E | apply Z.ltb_ge in E]; lia.
Qed.

(** The indices of a slice of a list of length [n] are places of the
    list. *)
Lemma slice_range_in_range (start stop step : option Z) (n : Z) :
  (0 <= n)%Z -> step <> Some 0%Z ->
  exists s e st indices,
    slice_indices start stop step n = Ok (s, e, st)
    /\ range_list s e st = Ok indices
    /\ Forall (fun i => (0 <= i < n)%Z) indices.
Proof.
  intros Hn Hstep. unfold slice_indices.
  set (st := default 1%Z step).
  assert (Hst : st <> 0%Z) by (subst st; destruct step; simpl; congruence).
  rewrite (proj2 (Z.eqb_neq st 0) Hst).
  destruct (st <? 0)%Z eqn:Hneg.
  - apply Z.ltb_lt in Hneg.
    set (s := match start with
              | Some i => clamp_index i n (-1) (n - 1) | None => (n - 1)%Z
              end).
    set (e := match stop with
              | Some i => clamp_index i n (-1) (n - 1) | None => (-1)%Z
              end).
    assert (-1 <= s <= n - 1)%Z
      by (subst s; destruct start; [by apply clamp_index_backward | lia]).
    assert (-1 <= e <= n - 1)%Z
      by (subst e; destruct stop; [by apply clamp_index_backward | lia]).
    eexists s, e, st, _. split; [reflexivity|].
    unfold range_list. rewrite (proj2 (Z.eqb_neq st 0) Hst).
    split; [reflexivity|].
    replace (0 <? st)%Z with false by (symmetry; apply Z.ltb_ge; lia).
    apply Forall_forall. intros i Hi%list_elem_of_In.
    apply in_map_iff in Hi as [k [<- Hk]].
    apply in_seq in Hk. destruct Hk as [_ Hk]. simpl in Hk.
    destruct (e <? s)%Z eqn:Hes; [apply Z.ltb_lt in Hes | simpl in Hk; lia].
    pose proof (Z.mul_div_le (s - e - 1) (- st) ltac:(lia)).
    assert (0 <= (s - e - 1) / - st)%Z by (apply Z.div_pos; lia).
    assert (Z.of_nat k <= (s - e - 1) / - st)%Z by lia.
    nia.
  - apply Z.ltb_ge in Hneg.
    set (s := match start with
              | Some i => clamp_index i n 0 n | None => 0%Z
              end).
    set (e := match stop with
              | Some i => clamp_index i n 0 n | None => n
              end).
    assert (0 <= s <= n)%Z
      by (subst s; destruct start; [by apply clamp_index_forward | lia]).
    assert (0 <= e <= n)%Z
      by (subst e; destruct stop; [by apply clamp_index_forward | lia]).
    eexists s, e, st, _. split; [reflexivity|].
    unfold range_list. rewrite (proj2 (Z.eqb_neq st 0) Hst).
    split; [reflexivity|].
    replace (0 <? st)%Z with true by (symmetry; apply Z.ltb_lt; lia).
    apply Forall_forall. intros i Hi%list_elem_of_In.
    apply in_map_iff in Hi as [k [<- Hk]].
    apply in_seq in Hk. destruct Hk as [_ Hk]. simpl in Hk.
    destruct (s <? e)%Z eqn:Hse; [apply Z.ltb_lt in Hse | simpl in Hk; lia].
    pose proof (Z.mul_div_le (e - s - 1) st ltac:(lia)).
    assert (0 <= (e - s - 1) / st)%Z by (apply Z.div_pos; lia).
    assert (Z.of_nat k <= (e - s - 1) / st)%Z by lia.
    nia.
Qed.

(** X11. A slice never raises an [IndexError]: whatever its bounds, in
    range or not, and whatever its step other than 0, [character[a:b:c]]
    gives a list whose elements are records of the ledger, at most as
    many as the range has indices; a step of 0 raises a [ValueError]. *)
Theorem getitem_slice_total (self : AICharacter) (start stop step : option Z) :
  (step <> Some 0%Z ->
   exists rs : list record,
     AICharacter.__getitem__ self (IndexSlice start stop step)
     = Ok (ItemRecords rs)
     /\ Forall (fun r => r ∈ conversation_history self) rs)
  /\ (step = Some 0%Z ->
      AICharacter.__getitem__ self (IndexSlice start stop step)
      = Raise (ValueError "slice step cannot be zero")).
Proof.
  split.
  - intros Hstep. unfold AICharacter.__getitem__.
    destruct (slice_range_in_range start stop step
                (Z.of_nat (length (conversation_history self)))
                ltac:(lia) Hstep) as (s & e & st & indices & Hs & Hr & Hall).
    rewrite Hs. cbn [result_bind]. rewrite Hr. cbn [result_bind].
    destruct (result_map_in_range (conversation_history self) indices Hall)
      as (rs & Hrs & Hin & _).
    rewrite Hrs. cbn [result_bind]. eauto.
  - intros ->. reflexivity.
Qed.

Lemma getitem_slice_total_witness :
  exists rs : list record,
    AICharacter.__getitem__ alice3 (IndexSlice (Some (-10)%Z) (Some 99%Z)
                                               (Some (-2)%Z))
    = Ok (ItemRecords rs)
    /\ Forall (fun r => r ∈ conversation_history alice3) rs.
Proof.
  apply (proj1 (getitem_slice_total alice3 (Some (-10)%Z) (Some 99%Z)
                  (Some (-2)%Z))). discriminate.
Defined.

Lemma result_map_seq {A} (l : list A) (s cnt : nat) :
  (s + cnt <= length l)%nat ->
  result_map (list_getitem l) (Z.of_nat <$> seq s cnt) = Ok (take cnt (drop s l)).
Proof.
  revert s. induction cnt as [|cnt IH]; intros s Hlen; simpl.
  - by rewrite take_0.
  - destruct (lookup_lt_is_Some_2 l s) as [x Hx]; [lia|].
    rewrite (list_getitem_nat l s x Hx). cbn [result_bind].
    rewrite IH by lia. cbn [result_bind].
    by rewrite (drop_S l x s Hx).
Qed.

Lemma range_forward (s cnt : nat) :
  map (fun k => (Z.of_nat s + Z.of_nat k * 1)%Z) (seq 0 cnt)
  = Z.of_nat <$> seq s cnt.
Proof.
  replace (seq s cnt) with (seq (s + 0) cnt) by (f_equal; lia).
  rewrite <- fmap_add_seq, <- list_fmap_compose.
  apply map_ext. intros k. simpl. lia.
Qed.

(** X12. With no step, or a step of 1, [character[a:b]] is the part of
    the ledger from [a] up to [b], in the order of the ledger, each bound
    being first clipped to the ledger: a negative bound counts from the
    end and stops at 0, a bound beyond the end stops at the length, an
    absent one is the start or the end. *)
Theorem getitem_slice_plain (self : AICharacter) (start stop step : option Z) :
  step = None \/ step = Some 1%Z ->
  let history := conversation_history self in
  let n := Z.of_nat (length history) in
  let lo := match start with Some i => clamp_index i n 0 n | None => 0%Z end in
  let hi := match stop with Some i => clamp_index i n 0 n | None => n end in
  AICharacter.__getitem__ self (IndexSlice start stop step)
  = Ok (ItemRecords (drop (Z.to_nat lo) (take (Z.to_nat hi) history))).
Proof.
  intros Hstep history n lo hi.
  assert (Hlo : (0 <= lo <= n)%Z)
    by (subst lo; destruct start; [apply clamp_index_forward|]; lia).
  assert (Hhi : (0 <= hi <= n)%Z)
    by (subst hi; destruct stop; [apply clamp_index_forward|]; lia).
  assert (Hind : slice_indices start stop step n = Ok (lo, hi, 1%Z))
    by (destruct Hstep as [-> | ->]; reflexivity).
  unfold AICharacter.__getitem__. fold history. fold n.
  rewrite Hind. cbn [result_bind]. unfold range_list.
  change (1 =? 0)%Z with false. change (0 <? 1)%Z with true. cbn iota.
  set (cnt := Z.to_nat (if (lo <? hi)%Z then (hi - lo - 1) / 1 + 1 else 0)%Z).
  assert (Hcnt : cnt = (Z.to_nat hi - Z.to_nat lo)%nat).
  { subst cnt. destruct (lo <? hi)%Z eqn:E;
      [apply Z.ltb_lt in E | apply Z.ltb_ge in E].
    - rewrite Z.div_1_r. lia.
    - lia. }
  cbn [result_bind].
  replace (map (fun k => (lo + Z.of_nat k * 1)%Z) (seq 0 cnt))
    with (map (fun k => (Z.of_nat (Z.to_nat lo) + Z.of_nat k * 1)%Z) (seq 0 cnt))
    by (by rewrite Z2Nat.id by lia).
  rewrite range_forward.
  rewrite result_map_seq by (subst n; lia). cbn [result_bind].
  do 2 f_equal. rewrite Hcnt.
  destruct (decide (Z.to_nat lo <= Z.to_nat hi)%nat) as [Hle|Hgt].
  - rewrite take_drop_commute. do 2 f_equal. lia.
  - replace (Z.to_nat hi - Z.to_nat lo)%nat with 0%nat by lia.
    rewrite take_0. symmetry. apply drop_ge. rewrite length_take. lia.
Qed.

Lemma getitem_slice_plain_witness :
  let history := conversation_history alice3 in
  let n := Z.of_nat (length history) in
  let lo := clamp_index (-2) n 0 n in
  let hi := clamp_index 99 n 0 n in
  AICharacter.__getitem__ alice3 (IndexSlice (Some (-2)%Z) (Some 99%Z) None)
  = Ok (ItemRecords (drop (Z.to_nat lo) (take (Z.to_nat hi) history))).
Proof.
  apply (getitem_slice_plain alice3 (Some (-2)%Z) (Some 99%Z) None). by left.
Defined.

Example getitem_slice_sample :
  AICharacter.__getitem__ alice3 (IndexSlice (Some (-2)%Z) (Some 99%Z) None)
  = Ok (ItemRecords (drop 1 (conversation_history alice3))).
Proof. reflexivity. Qed.

(** ** Searching the ledger *)

Lemma startswith_refl (s : pystr) : startswith s s = true.
Proof. apply startswith_take. apply firstn_all. Qed.

Lemma contains_refl (s : pystr) : contains s s = true.
Proof. destruct s; simpl; [done|]. by rewrite N.eqb_refl, startswith_refl. Qed.

Lemma contains_app_r (p s : pystr) : contains (p ++ s) s = true.
Proof.
  induction p as [|a p IH]; simpl; [apply contains_refl|].
  rewrite IH. apply orb_true_r.
Qed.

Lemma contains_loop_complete (keyword : pystr) (history : list record) :
  Forall record_complete history ->
  AICharacter.__contains__loop keyword history
  = Ok (existsb (record_mentions keyword) history).
Proof.
  induction 1 as [|conv rest Hc _ IH]; simpl; [done|].
  destruct (record_complete_lookup conv Hc) as (t & u & a & _ & Hu & Ha).
  unfold getitem_record, record_mentions. rewrite Hu, Ha. simpl.
  destruct (contains u keyword); [done|].
  destruct (contains a keyword); [done|]. by rewrite IH.
Qed.

Lemma find_loop_complete (keyword : pystr) (history : list record) :
  Forall record_complete history ->
  AIConversationAnalyzer.find_loop keyword history
  = Ok (List.filter (record_mentions keyword) history).
Proof.
  induction 1 as [|conv rest Hc _ IH]; simpl; [done|].
  destruct (record_complete_lookup conv Hc) as (t & u & a & _ & Hu & Ha).
  unfold getitem_record, record_mentions. rewrite Hu, Ha, IH. simpl.
  destruct (contains u keyword); [done|]. simpl.
  by destruct (contains a keyword).
Qed.

(** X13. Every record of the ledger has the four fields [timestamp],
    [user], [assistant] and [model], and no other: this holds of the
    empty ledger of a new character and a call of [speak], on either
    class, returning or raising, keeps it. *)
Theorem speak_keeps_records_complete (w : World) (text : pystr)
        (c : character) :
  Forall record_complete (ledger c) ->
  Forall record_complete (ledger (snd (speak w text c))).
Proof.
  intros Hall. destruct (speak w text c) as [[reply|e] c'] eqn:Hrun; cbn [snd].
  - destruct (speak_ok_ledger w text reply c c' Hrun) as (conv & -> & Hc & _).
    apply Forall_app. split; [done|]. by apply Forall_singleton.
  - by apply speak_raise_same in Hrun as ->.
Qed.

Lemma speak_keeps_records_complete_witness :
  Forall record_complete
    (ledger (snd (speak w_sample (py "你好") (Advanced rex)))).
Proof. apply speak_keeps_records_complete. constructor. Defined.

(** X14. On a ledger whose records are complete, [keyword in character]
    never raises and is true exactly when the keyword occurs in the
    [user] or the [assistant] field of some record. *)
Theorem contains_spec (self : AICharacter) (keyword : pystr) :
  Forall record_complete (conversation_history self) ->
  AICharacter.__contains__ self keyword
  = Ok (existsb (record_mentions keyword) (conversation_history self)).
Proof. apply contains_loop_complete. Qed.

Lemma contains_spec_witness :
  AICharacter.__contains__ alice3 (py "x =")
  = Ok (existsb (record_mentions (py "x =")) (conversation_history alice3)).
Proof.
  apply contains_spec.
  repeat (apply Forall_cons; split; [reflexivity|]). constructor.
Defined.

(** X15. On such a ledger [find_conversation_by_keyword] gives the
    records that mention the keyword, all of them and in the order of the
    ledger, and it agrees with [keyword in character]: the list is not
    empty exactly when the containment test is true. *)
Theorem find_conversation_spec (character : AICharacter) (keyword : pystr) :
  Forall record_complete (conversation_history character) ->
  AIConversationAnalyzer.find_conversation_by_keyword character keyword
  = Ok (List.filter (record_mentions keyword) (conversation_history character))
  /\ (AICharacter.__contains__ character keyword = Ok true
      <-> List.filter (record_mentions keyword)
            (conversation_history character) <> []).
Proof.
  intros Hall. split; [by apply find_loop_complete|].
  unfold AICharacter.__contains__. rewrite contains_loop_complete by done.
  induction (conversation_history character) as [|conv rest IH]; simpl.
  - split; [done | congruence].
  - apply Forall_cons in Hall as [_ Hrest].
    destruct (record_mentions keyword conv); simpl; [done | by apply IH].
Qed.

Lemma find_conversation_spec_witness :
  AIConversationAnalyzer.find_conversation_by_keyword alice3 (py "谢谢")
  = Ok (List.filter (record_mentions (py "谢谢")) (conversation_history alice3))
  /\ (AICharacter.__contains__ alice3 (py "谢谢") = Ok true
      <-> List.filter (record_mentions (py "谢谢"))
            (conversation_history alice3) <> []).
Proof.
  apply find_conversation_spec.
  repeat (apply Forall_cons; split; [reflexivity|]). constructor.
Defined.

(** X16. What was just said can be found: after a call of [speak] that
    returns, on a character of either class whose records are complete,
    both the text given and the reply returned are contained in the
    character. *)
Theorem said_text_is_contained (w : World) (text reply : pystr)
        (c c' : character) :
  Forall record_complete (ledger c) ->
  speak w text c = (Ok reply, c') ->
  AICharacter.__contains__ (as_base c') text = Ok true
  /\ AICharacter.__contains__ (as_base c') reply = Ok true.
Proof.
  intros Hall Hrun.
  destruct (speak_ok_ledger w text reply c c' Hrun)
    as (conv & Hl & Hc & Ha & Hu & _).
  unfold ledger in Hl. unfold AICharacter.__contains__. rewrite Hl.
  assert (Hall' : Forall record_complete (ledger c ++ [conv]))
    by (apply Forall_app; split; [done | by apply Forall_singleton]).
  rewrite !contains_loop_complete by done.
  rewrite !existsb_app. simpl. unfold record_mentions. rewrite Hu, Ha. simpl.
  rewrite contains_refl.
  assert (Hseen : contains (seen_text c text) text = true).
  { destruct c as [b|a]; simpl; [apply contains_refl|]. unfold prefixed.
    repeat case_bool_decide; first [apply contains_app_r | apply contains_refl]. }
  rewrite Hseen. by rewrite !orb_true_r.
Qed.

Lemma said_text_is_contained_witness :
  AICharacter.__contains__ (as_base (Advanced rex_after)) (py "x = 1") = Ok true
  /\ AICharacter.__contains__ (as_base (Advanced rex_after)) rex_reply = Ok true.
Proof.
  apply (said_text_is_contained w_sample (py "x = 1") rex_reply (Advanced rex));
    [constructor | reflexivity].
Defined.

(** ** The summary *)

Lemma summary_words_complete (history : list record) :
  Forall record_complete history ->
  AICharacter.summary_words history
  = Ok (Z.of_nat (spec_total_words "user" history
                  + spec_total_words "assistant" history)).
Proof.
  induction 1 as [|conv rest Hc _ IH]; simpl; [done|].
  destruct (record_complete_lookup conv Hc) as (t & u & a & _ & Hu & Ha).
  unfold getitem_record. rewrite Hu. cbn [result_bind].
  rewrite Ha. cbn [result_bind]. rewrite IH. cbn [result_bind].
  assert (Hwu : words_of "user" conv = word_count u)
    by (unfold words_of; by rewrite Hu).
  assert (Hwa : words_of "assistant" conv = word_count a)
    by (unfold words_of; by rewrite Ha).
  change (spec_total_words "user" (conv :: rest))
    with (words_of "user" conv + spec_total_words "user" rest)%nat.
  change (spec_total_words "assistant" (conv :: rest))
    with (words_of "assistant" conv + spec_total_words "assistant" rest)%nat.
  rewrite Hwu, Hwa. f_equal. lia.
Qed.

(** X17. On a ledger whose records are complete, [info_summary] never
    raises: it counts the records, adds up the words of the [user] and of
    the [assistant] fields, and reports at least 1 active day when the
    clock has not gone back since the character was created. *)
Theorem info_summary_spec (w : World) (self : AICharacter) :
  Forall record_complete (conversation_history self) ->
  exists summary : gmap string pyval,
    AICharacter.info_summary w self = Ok summary
    /\ summary !! "conversation_count"
       = Some (VInt (Z.of_nat (length (conversation_history self))))
    /\ summary !! "total_words"
       = Some (VInt (Z.of_nat
                       (spec_total_words "user" (conversation_history self)
                        + spec_total_words "assistant"
                            (conversation_history self))))
    /\ exists days : Z,
         summary !! "active_days" = Some (VInt days)
         /\ ((created_at self <= now w)%Z -> (1 <= days)%Z).
Proof.
  intros Hall. unfold AICharacter.info_summary.
  rewrite summary_words_complete by done. cbn [result_bind].
  eexists. split; [reflexivity|].
  split; [by rewrite !lookup_insert_ne by discriminate; rewrite lookup_insert_eq|].
  split; [by rewrite !lookup_insert_ne by discriminate; rewrite lookup_insert_eq|].
  eexists. split.
  - rewrite !lookup_insert_ne by discriminate. apply lookup_singleton_eq.
  - intros Hle. assert (0 <= (now w - created_at self) / 86400000000)%Z
      by (apply Z.div_pos; lia). lia.
Qed.

Lemma info_summary_spec_witness :
  exists summary : gmap string pyval,
    AICharacter.info_summary w_sample alice3 = Ok summary
    /\ summary !! "conversation_count"
       = Some (VInt (Z.of_nat (length (conversation_history alice3))))
    /\ summary !! "total_words"
       = Some (VInt (Z.of_nat
                       (spec_total_words "user" (conversation_history alice3)
                        + spec_total_words "assistant"
                            (conversation_history alice3))))
    /\ exists days : Z,
         summary !! "active_days" = Some (VInt days)
         /\ ((created_at alice3 <= now w_sample)%Z -> (1 <= days)%Z).
Proof.
  apply info_summary_spec.
  repeat (apply Forall_cons; split; [reflexivity|]). constructor.
Defined.

(** ** The batch, once a reply is bound *)

Lemma batch_loop_bound (ws : nat -> World) (message : pystr)
      (rest : list character) :
  forall (i : nat) (r : pystr) (results : gmap pystr (gmap string pyval)),
  exists (results' : gmap pystr (gmap string pyval)) (rest' : list character),
    AIConversationBatchProcessor.batch_loop ws i message rest (Some r) results
    = (Ok results', rest')
    /\ length rest' = length rest
    /\ (forall k, is_Some (results !! k) -> is_Some (results' !! k))
    /\ (forall c, c ∈ rest ->
                  is_Some (results' !! AICharacter.name (as_base c))).
Proof.
  induction rest as [|c rest IH]; intros i r results; simpl.
  - exists results, []. repeat split; [done|]. by intros c ?%elem_of_nil.
  - pose proof (speak_same_name (ws i) message c) as Hname.
    destruct (speak (ws i) message c) as [[r'|e] c'] eqn:Hrun;
      cbn [snd] in Hname; rewrite Hname.
    + destruct (IH (S i) r'
                  (<[AICharacter.name (as_base c) :=
                       {[ "response" := VStr r'; "success" := VBool true ]}]>
                     results)) as (res & rest' & -> & Hlen & Hmono & Hcov).
      exists res, (c' :: rest'). split; [done|]. split; [by simpl; rewrite Hlen|].
      split.
      * intros k Hk. apply Hmono.
        destruct (decide (AICharacter.name (as_base c) = k)) as [->|Hne];
          [by rewrite lookup_insert_eq | by rewrite lookup_insert_ne].
      * intros x [->|Hx]%elem_of_cons; [|by apply Hcov].
        apply Hmono. by rewrite lookup_insert_eq.
    + destruct (IH (S i) r
                  (<[AICharacter.name (as_base c) :=
                       {[ "response" := VStr r; "success" := VBool false ]}]>
                     results)) as (res & rest' & -> & Hlen & Hmono & Hcov).
      exists res, (c' :: rest'). split; [done|]. split; [by simpl; rewrite Hlen|].
      split.
      * intros k Hk. apply Hmono.
        destruct (decide (AICharacter.name (as_base c) = k)) as [->|Hne];
          [by rewrite lookup_insert_eq | by rewrite lookup_insert_ne].
      * intros x [->|Hx]%elem_of_cons; [|by apply Hcov].
        apply Hmono. by rewrite lookup_insert_eq.
Qed.

(** X18. Once the first character has answered, [batch_converse] goes
    through the whole list and returns: whatever the later calls of
    [speak] do, the result has an entry under the name of every character
    of the list, and as many characters come back as went in. *)
Theorem batch_converse_returns_after_first_reply (ws : nat -> World)
        (c : character) (rest : list character) (message : pystr) :
  is_ok (fst (speak (ws 0%nat) message c)) = true ->
  exists (results : gmap pystr (gmap string pyval)) (after : list character),
    AIConversationBatchProcessor.batch_converse ws (c :: rest) message
    = (Ok results, after)
    /\ length after = length (c :: rest)
    /\ forall x, x ∈ c :: rest ->
                 is_Some (results !! AICharacter.name (as_base x)).
Proof.
  intros Hok. unfold AIConversationBatchProcessor.batch_converse. simpl.
  pose proof (speak_same_name (ws 0%nat) message c) as Hname.
  destruct (speak (ws 0%nat) message c) as [[r|e] c'] eqn:Hrun; [|done].
  cbn [snd] in Hname. rewrite Hname.
  destruct (batch_loop_bound ws message rest 1 r
              (<[AICharacter.name (as_base c) :=
                   {[ "response" := VStr r; "success" := VBool true ]}]> ∅))
    as (res & rest' & -> & Hlen & Hmono & Hcov).
  exists res, (c' :: rest'). split; [done|]. split; [by simpl; rewrite Hlen|].
  intros x [->|Hx]%elem_of_cons; [|by apply Hcov].
  apply Hmono. by rewrite lookup_insert_eq.
Qed.

Lemma batch_converse_returns_after_first_reply_witness :
  exists (results : gmap pystr (gmap string pyval)) (after : list character),
    AIConversationBatchProcessor.batch_converse (fun _ => w_sample)
      [Advanced rex; Base alice; Base bob] (py " ")
    = (Ok results, after)
    /\ length after = length [Advanced rex; Base alice; Base bob]
    /\ forall x, x ∈ [Advanced rex; Base alice; Base bob] ->
                 is_Some (results !! AICharacter.name (as_base x)).
Proof.
  apply (batch_converse_returns_after_first_reply (fun _ => w_sample)).
  reflexivity.
Defined.

(** ** The registry *)

Section Registry.

Context {V : Type}.
Implicit Types (d : list (pystr * V)) (k : pystr) (v : V).

Lemma dict_contains_false d k : dict_contains d k = false <-> k ∉ d.*1.
Proof.
  unfold dict_contains. induction d as [|[k0 v0] d IH]; simpl.
  - split; [intros _ ?%elem_of_nil; done | done].
  - rewrite orb_false_iff, IH, not_elem_of_cons.
    rewrite bool_decide_eq_false. naive_solver.
Qed.

Lemma dict_get_absent d k : k ∉ d.*1 -> dict_get d k = None.
Proof.
  induction d as [|[k0 v0] d IH]; simpl; [done|].
  intros [Hne Hrest]%not_elem_of_cons.
  rewrite bool_decide_eq_false_2 by done. auto.
Qed.

Lemma dict_set_absent d k v : k ∉ d.*1 -> dict_set d k v = d ++ [(k, v)].
Proof.
  induction d as [|[k0 v0] d IH]; simpl; [done|].
  intros [Hne Hrest]%not_elem_of_cons.
  rewrite bool_decide_eq_false_2 by done. by rewrite IH.
Qed.

Lemma dict_get_snoc d k v k' :
  dict_get (d ++ [(k, v)]) k'
  = match dict_get d k' with
    | Some x => Some x
    | None => if bool_decide (k = k') then Some v else None
    end.
Proof.
  induction d as [|[k0 v0] d IH]; simpl; [done|].
  by destruct (bool_decide (k0 = k')).
Qed.

Lemma dict_del_absent d k : k ∉ d.*1 -> dict_del d k = d.
Proof.
  unfold dict_del. induction d as [|[k0 v0] d IH]; [done|].
  intros [Hne Hrest]%not_elem_of_cons. simpl in Hne.
  rewrite filter_cons_True by (simpl; congruence). by rewrite IH.
Qed.

Lemma dict_del_snoc d k v : k ∉ d.*1 -> dict_del (d ++ [(k, v)]) k = d.
Proof.
  intros Habs. unfold dict_del. rewrite filter_app.
  fold (dict_del d k). rewrite dict_del_absent by done.
  rewrite filter_cons_False by (simpl; tauto). by rewrite app_nil_r.
Qed.

Lemma dict_get_del d k k' :
  dict_get (dict_del d k) k'
  = if bool_decide (k = k') then None else dict_get d k'.
Proof.
  unfold dict_del. induction d as [|[k0 v0] d IH]; simpl.
  - by case_bool_decide.
  - destruct (decide (k0 = k)) as [->|Hne].
    + rewrite filter_cons_False by (simpl; tauto). rewrite IH.
      by repeat case_bool_decide.
    + rewrite filter_cons_True by done. simpl. rewrite IH.
      repeat case_bool_decide; congruence.
Qed.

Lemma dict_del_keys d k : (dict_del d k).*1 = filter (fun x => x <> k) d.*1.
Proof.
  unfold dict_del. induction d as [|[k0 v0] d IH]; [done|].
  rewrite fmap_cons. cbn [fst].
  destruct (decide (k0 = k)) as [->|Hne].
  - rewrite (filter_cons_False _ (k, v0)) by (simpl; tauto).
    by rewrite (filter_cons_False _ k) by tauto.
  - rewrite (filter_cons_True _ (k0, v0)) by done.
    rewrite (filter_cons_True _ k0) by done.
    rewrite fmap_cons. cbn [fst]. by rewrite IH.
Qed.

End Registry.

(** X19. [add_character] registers a character under its name when the
    name is free: the character is then what [get_characters] gives for
    that name, every other name gives what it gave, and
    [list_characters] has one more entry, at the end.  When the name is
    taken it raises a [ValueError] and the registry is left as it is. *)
Theorem add_character_spec (c : character)
        (characters : list (pystr * character)) :
  let name := AICharacter.name (as_base c) in
  (dict_contains characters name = false ->
   exists message,
     AICharacterManager.add_character c characters
     = (Ok message, characters ++ [(name, c)])
     /\ AICharacterManager.get_characters (characters ++ [(name, c)]) name
        = Some c
     /\ (forall other, other <> name ->
           AICharacterManager.get_characters (characters ++ [(name, c)]) other
           = AICharacterManager.get_characters characters other)
     /\ AICharacterManager.list_characters (characters ++ [(name, c)])
        = AICharacterManager.list_characters characters
            ++ AICharacterManager.list_characters [(name, c)])
  /\ (dict_contains characters name = true ->
      exists msg,
        AICharacterManager.add_character c characters
        = (Raise (ValueError msg), characters)).
Proof.
  cbn zeta. unfold AICharacterManager.add_character,
    AICharacterManager.get_characters. split.
  - intros Hfree. rewrite Hfree. apply dict_contains_false in Hfree.
    rewrite dict_set_absent by done. eexists. split; [done|].
    split; [|split].
    + rewrite dict_get_snoc, dict_get_absent by done.
      by rewrite bool_decide_eq_true_2.
    + intros other Hne. rewrite dict_get_snoc.
      destruct (dict_get characters other); [done|].
      by rewrite bool_decide_eq_false_2.
    + unfold AICharacterManager.list_characters. by rewrite map_app.
  - intros ->. eauto.
Qed.

Lemma add_character_spec_witness :
  exists message,
    AICharacterManager.add_character (Base bob) [(py "Alice", Base alice)]
    = (Ok message, [(py "Alice", Base alice)] ++ [(py "Bob", Base bob)])
    /\ AICharacterManager.get_characters
         ([(py "Alice", Base alice)] ++ [(py "Bob", Base bob)]) (py "Bob")
       = Some (Base bob)
    /\ (forall other, other <> py "Bob" ->
          AICharacterManager.get_characters
            ([(py "Alice", Base alice)] ++ [(py "Bob", Base bob)]) other
          = AICharacterManager.get_characters [(py "Alice", Base alice)] other)
    /\ AICharacterManager.list_characters
         ([(py "Alice", Base alice)] ++ [(py "Bob", Base bob)])
       = AICharacterManager.list_characters [(py "Alice", Base alice)]
           ++ AICharacterManager.list_characters [(py "Bob", Base bob)].
Proof.
  apply (proj1 (add_character_spec (Base bob) [(py "Alice", Base alice)])).
  reflexivity.
Defined.

(** X20. [remove_character] raises a [ValueError] and changes nothing
    when the name is not registered; otherwise the name is no longer
    found afterwards and every other name gives what it gave. *)
Theorem remove_character_spec (name : pystr)
        (characters : list (pystr * character)) :
  (dict_contains characters name = false ->
   exists msg,
     AICharacterManager.remove_character name characters
     = (Raise (ValueError msg), characters))
  /\ (dict_contains characters name = true ->
      exists message after,
        AICharacterManager.remove_character name characters
        = (Ok message, after)
        /\ AICharacterManager.get_characters after name = None
        /\ dict_contains after name = false
        /\ forall other, other <> name ->
             AICharacterManager.get_characters after other
             = AICharacterManager.get_characters characters other).
Proof.
  unfold AICharacterManager.remove_character,
    AICharacterManager.get_characters. split.
  - intros ->. cbn. eauto.
  - intros ->. cbn [negb]. eexists _, _. split; [reflexivity|].
    split; [|split].
    + rewrite dict_get_del. by rewrite bool_decide_eq_true_2.
    + apply dict_contains_false. rewrite dict_del_keys.
      intros [H _]%list_elem_of_filter. done.
    + intros other Hne. rewrite dict_get_del.
      by rewrite bool_decide_eq_false_2.
Qed.

Lemma remove_character_spec_witness :
  exists message after,
    AICharacterManager.remove_character (py "Alice")
      [(py "Alice", Base alice); (py "Bob", Base bob)]
    = (Ok message, after)
    /\ AICharacterManager.get_characters after (py "Alice") = None
    /\ dict_contains after (py "Alice") = false
    /\ forall other, other <> py "Alice" ->
         AICharacterManager.get_characters after other
         = AICharacterManager.get_characters
             [(py "Alice", Base alice); (py "Bob", Base bob)] other.
Proof.
  apply (proj2 (remove_character_spec (py "Alice")
                  [(py "Alice", Base alice); (py "Bob", Base bob)])).
  reflexivity.
Defined.

(** X21. Registering a character under a free name and then removing
    that name gives back the registry as it was, entries and order. *)
Theorem add_then_remove (c : character)
        (characters : list (pystr * character)) :
  dict_contains characters (AICharacter.name (as_base c)) = false ->
  exists m1 m2 registered,
    AICharacterManager.add_character c characters = (Ok m1, registered)
    /\ AICharacterManager.remove_character (AICharacter.name (as_base c))
         registered = (Ok m2, characters).
Proof.
  intros Hfree. unfold AICharacterManager.add_character,
    AICharacterManager.remove_character.
  rewrite Hfree. apply dict_contains_false in Hfree.
  rewrite dict_set_absent by done. eexists _, _, _. split; [reflexivity|].
  assert (Hin : dict_contains
                  (characters ++ [(AICharacter.name (as_base c), c)])
                  (AICharacter.name (as_base c)) = true).
  { unfold dict_contains. rewrite existsb_app. simpl.
    rewrite bool_decide_eq_true_2 by done. by rewrite orb_true_r. }
  rewrite Hin. cbn [negb]. by rewrite dict_del_snoc.
Qed.

Lemma add_then_remove_witness :
  exists m1 m2 registered,
    AICharacterManager.add_character (Base bob) [(py "Alice", Base alice)]
    = (Ok m1, registered)
    /\ AICharacterManager.remove_character (AICharacter.name (as_base (Base bob)))
         registered = (Ok m2, [(py "Alice", Base alice)]).
Proof. apply add_then_remove. reflexivity. Defined.

(** X22. The registry stays keyed by name: if its keys are distinct and
    each is the name of the character stored under it, the same holds
    after [add_character] and after [remove_character], whether they
    return or raise; it holds of the empty registry of a new manager. *)
Theorem registry_stays_ok (characters : list (pystr * character)) :
  registry_ok characters ->
  (forall c, registry_ok (snd (AICharacterManager.add_character c characters)))
  /\ (forall name,
        registry_ok (snd (AICharacterManager.remove_character name characters))).
Proof.
  intros [Hnd Hkeys]. split.
  - intros c. unfold AICharacterManager.add_character.
    destruct (dict_contains characters (AICharacter.name (as_base c))) eqn:E;
      cbn [snd]; [done|].
    apply dict_contains_false in E. rewrite dict_set_absent by done.
    split.
    + rewrite fmap_app. apply NoDup_app. split; [done|].
      split; [|apply NoDup_singleton].
      intros k Hk ->%list_elem_of_singleton. done.
    + apply Forall_app. split; [done|]. by apply Forall_singleton.
  - intros name. unfold AICharacterManager.remove_character.
    destruct (dict_contains characters name); cbn [negb snd]; [|done].
    split.
    + rewrite dict_del_keys. by apply NoDup_filter.
    + unfold dict_del. rewrite Forall_forall in Hkeys |- *.
      intros kv [_ Hin]%list_elem_of_filter. by apply Hkeys.
Qed.

Lemma registry_stays_ok_witness :
  (forall c, registry_ok (snd (AICharacterManager.add_character c
                                 AICharacterManager.__init__)))
  /\ (forall name,
        registry_ok (snd (AICharacterManager.remove_character name
                            AICharacterManager.__init__))).
Proof.
  apply registry_stays_ok. split; [apply NoDup_nil_2 | constructor].
Defined.

(** ** More on merging *)

(** X23. Merging is associative on what it combines: [(a + b) + c] and
    [a + (b + c)] both exist and have the same name and the same ledger,
    whatever the times at which the four merges are made. *)
Theorem add_associative (w1 w2 w3 w4 : World) (a b c : character) :
  exists ab bc left right : AICharacter,
    AICharacter.__add__ w1 (as_base a) (ObjCharacter b) = Ok ab
    /\ AICharacter.__add__ w2 ab (ObjCharacter c) = Ok left
    /\ AICharacter.__add__ w3 (as_base b) (ObjCharacter c) = Ok bc
    /\ AICharacter.__add__ w4 (as_base a) (ObjCharacter (Base bc)) = Ok right
    /\ AICharacter.name left = AICharacter.name right
    /\ conversation_history left = conversation_history right.
Proof.
  eexists _, _, _, _. repeat (split; [reflexivity|]).
  unfold AICharacter.name. simpl. by rewrite <- !app_assoc.
Qed.

(** X24. The merged character takes only names and records from its
    operands: it has no credential, so that reading [api_key] gives
    nothing, the default model, the prompt [merged Character], the rate
    limit 1000 and the time of the merge as creation time, whatever the
    operands hold. *)
Theorem add_gives_fresh_profile (w : World) (a b : character) :
  exists merged : AICharacter,
    AICharacter.__add__ w (as_base a) (ObjCharacter b) = Ok merged
    /\ __api_key merged = None
    /\ AICharacter.api_key merged = None
    /\ model merged = DEFAULT_MODEL
    /\ AICharacter.get_system_prompt merged = py "merged Character"
    /\ AICharacter.rate_limit merged = 1000%Z
    /\ created_at merged = now w.
Proof. eexists. split; [reflexivity|]. repeat split. Qed.

(** ** Speaking after a merge, in the store *)

(** X25. The ledger of a merged character is its own: when [a] is
    spoken to after [a + b] was built, the list of [a] gets the new
    record and the list of the merged character still holds the records
    that [a] and [b] had at the merge. *)
Theorem merged_ledger_is_independent (w w' : World) (h h1 h2 : Heap.heap)
        (a b merged : Heap.loc) (oa ob : Heap.object) (la lb : list record)
        (text reply : pystr) :
  Heap.objects h !! a = Some oa ->
  Heap.objects h !! b = Some ob ->
  Heap.lists h !! Heap.conversation_history_ref oa = Some la ->
  Heap.lists h !! Heap.conversation_history_ref ob = Some lb ->
  Heap.__add__ w a (Heap.Ref b) h = (Ok merged, h1) ->
  Heap.speak w' text a h1 = (Ok reply, h2) ->
  exists (om : Heap.object) (conv : record),
    Heap.objects h2 !! merged = Some om
    /\ Heap.lists h2 !! Heap.conversation_history_ref om = Some (la ++ lb)
    /\ Heap.objects h2 !! a = Some oa
    /\ Heap.lists h2 !! Heap.conversation_history_ref oa = Some (la ++ [conv])
    /\ conv !! "user" = Some text
    /\ conv !! "assistant" = Some reply.
Proof.
  intros Ha Hb Hla Hlb Hadd Hspeak.
  destruct (add_run w h a b oa ob la lb Ha Hb Hla Hlb)
    as (p & l0 & l & c & Hc & Hp & Hl0 & Hl & Hne & Hrun).
  rewrite Hrun in Hadd. injection Hadd as <- <-.
  assert (l0 <> Heap.conversation_history_ref oa) by congruence.
  assert (l <> Heap.conversation_history_ref oa) by congruence.
  assert (p <> a) by congruence.
  unfold Heap.speak, Heap.read in Hspeak. cbn [Heap.objects Heap.lists] in Hspeak.
  rewrite !lookup_insert_ne in Hspeak by done. rewrite Ha in Hspeak.
  cbn [mbind option_bind] in Hspeak.
  rewrite !lookup_insert_ne in Hspeak by done. rewrite Hla in Hspeak.
  cbn [mbind option_bind] in Hspeak.
  match type of Hspeak with
  | context [AICharacter.speak w' text ?s] =>
    destruct (AICharacter.speak w' text s) as [[r|e] s'] eqn:Hval
  end; [|done].
  unfold Heap.get_object, Heap.append_record, Heap.get_list, bind, modify, ret
    in Hspeak.
  cbn [Heap.objects Heap.lists] in Hspeak.
  rewrite !lookup_insert_ne in Hspeak by done. rewrite Ha in Hspeak.
  cbv beta iota in Hspeak. cbn [Heap.objects Heap.lists] in Hspeak.
  rewrite !lookup_insert_ne in Hspeak by done. rewrite Hla in Hspeak.
  cbv beta iota in Hspeak. cbn [Heap.objects Heap.lists] in Hspeak.
  apply speak_inv in Hval as Hs'. clear Hs'.
  apply pair_equal_spec in Hspeak as [Hreply <-].
  assert (r = reply) as -> by congruence. clear Hreply.
  cbn [Heap.objects Heap.lists Heap.conversation_history_ref Heap.object_of].
  cbn [model].
  exists (Heap.object_of c l),
    (AICharacter.conversation_record w' text reply (Heap.model_attr oa)).
  split; [apply lookup_insert_eq|].
  split.
  { cbn [Heap.conversation_history_ref Heap.object_of].
    rewrite lookup_insert_ne by done. apply lookup_insert_eq. }
  split; [by rewrite !lookup_insert_ne by done|].
  split; [apply lookup_insert_eq|].
  destruct (conversation_record_lookups w' text reply (Heap.model_attr oa))
    as (_ & Hu & Has & _). done.
Qed.

Lemma merged_ledger_is_independent_witness :
  exists (om : Heap.object) (conv : record),
    Heap.objects
      (snd (Heap.speak w_sample (py "hi") 1%positive
              (snd (Heap.__add__ w_sample 1%positive (Heap.Ref 2%positive)
                      h_sample)))) !! 3%positive = Some om
    /\ Heap.lists
         (snd (Heap.speak w_sample (py "hi") 1%positive
                 (snd (Heap.__add__ w_sample 1%positive (Heap.Ref 2%positive)
                         h_sample)))) !! Heap.conversation_history_ref om
       = Some ([greeting (py "a")] ++ [greeting (py "b")])
    /\ Heap.objects
         (snd (Heap.speak w_sample (py "hi") 1%positive
                 (snd (Heap.__add__ w_sample 1%positive (Heap.Ref 2%positive)
                         h_sample)))) !! 1%positive
       = Some (Heap.object_of alice 1%positive)
    /\ Heap.lists
         (snd (Heap.speak w_sample (py "hi") 1%positive
                 (snd (Heap.__add__ w_sample 1%positive (Heap.Ref 2%positive)
                         h_sample))))
         !! Heap.conversation_history_ref (Heap.object_of alice 1%positive)
       = Some ([greeting (py "a")] ++ [conv])
    /\ conv !! "user" = Some (py "hi")
    /\ conv !! "assistant"
       = Some (AICharacter.fallback_response (py "Alice") (py "hi")).
Proof.
  apply (merged_ledger_is_independent w_sample w_sample h_sample
           (snd (Heap.__add__ w_sample 1%positive (Heap.Ref 2%positive)
                   h_sample))
           _ 1%positive 2%positive 3%positive
           (Heap.object_of alice 1%positive) (Heap.object_of bob 2%positive)
           [greeting (py "a")] [greeting (py "b")] (py "hi")); reflexivity.
Defined.

(** ** The other figures of the statistics *)

(** X26. For a ledger that is not empty and whose records are complete,
    [get_conversation_stats] reports the timestamp of the first record
    and that of the last one, and a number of conversations of today
    between 0 and the number of records. *)
Theorem stats_first_last (w : World) (character : AICharacter) :
  conversation_history character <> [] ->
  Forall record_complete (conversation_history character) ->
  exists (first_record last_record : record) (tf tl : pystr) (today : Z),
    head (conversation_history character) = Some first_record
    /\ last (conversation_history character) = Some last_record
    /\ first_record !! "timestamp" = Some tf
    /\ last_record !! "timestamp" = Some tl
    /\ AIConversationAnalyzer.get_conversation_stats w character
         !! "first_conversation" = Some (VStr tf)
    /\ AIConversationAnalyzer.get_conversation_stats w character
         !! "last_conversation" = Some (VStr tl)
    /\ AIConversationAnalyzer.get_conversation_stats w character
         !! "today_conversation" = Some (VInt today)
    /\ (0 <= today <= Z.of_nat (length (conversation_history character)))%Z.
Proof.
  intros Hne Hall. unfold AIConversationAnalyzer.get_conversation_stats.
  rewrite bool_decide_eq_false_2 by done. cbn [negb].
  destruct (conversation_history character) as [|first rest] eqn:Hh; [done|].
  destruct (last_is_Some (first :: rest)) as [_ Hlast].
  destruct Hlast as [final Hlast]; [done|].
  assert (Hin : final ∈ first :: rest)
    by (apply last_Some in Hlast as [l' ->]; set_solver).
  rewrite Forall_forall in Hall.
  destruct (record_complete_lookup first (Hall first ltac:(set_solver)))
    as (tf & _ & _ & Htf & _).
  destruct (record_complete_lookup final (Hall final Hin))
    as (tl & _ & _ & Htl & _).
  exists first, final, tf, tl. eexists. split; [done|].
  split; [done|]. split; [done|]. split; [done|].
  rewrite Hlast. cbn [head from_option].
  unfold AIConversationAnalyzer.get_timestamp. rewrite Htf, Htl.
  split; [by rewrite !lookup_insert_ne by discriminate;
             rewrite lookup_insert_eq|].
  split; [by rewrite !lookup_insert_ne by discriminate;
             rewrite lookup_singleton_eq|].
  split; [by rewrite !lookup_insert_ne by discriminate;
             rewrite lookup_insert_eq|].
  pose proof (length_filter (fun conv =>
                AIConversationAnalyzer.is_today w conv = true) (first :: rest)).
  lia.
Qed.

Lemma stats_first_last_witness :
  exists (first_record last_record : record) (tf tl : pystr) (today : Z),
    head (conversation_history alice3) = Some first_record
    /\ last (conversation_history alice3) = Some last_record
    /\ first_record !! "timestamp" = Some tf
    /\ last_record !! "timestamp" = Some tl
    /\ AIConversationAnalyzer.get_conversation_stats w_sample alice3
         !! "first_conversation" = Some (VStr tf)
    /\ AIConversationAnalyzer.get_conversation_stats w_sample alice3
         !! "last_conversation" = Some (VStr tl)
    /\ AIConversationAnalyzer.get_conversation_stats w_sample alice3
         !! "today_conversation" = Some (VInt today)
    /\ (0 <= today <= Z.of_nat (length (conversation_history alice3)))%Z.
Proof.
  apply stats_first_last; [discriminate|].
  repeat (apply Forall_cons; split; [reflexivity|]). constructor.
Defined.

(** ** Token accounting, for every role *)

Lemma word_count_not_blank (s : pystr) :
  strip s <> [] -> (1 <= word_count s)%nat.
Proof.
  intros Hne. apply word_count_pos.
  destruct (forallb is_space s) eqn:E; [by apply strip_all_space in E|].
  clear Hne. induction s as [|c r IH]; simpl in *; [done|].
  destruct (is_space c); simpl in *; [auto | done].
Qed.

(** X27. Whatever the role, a call of the override that returns adds to
    [token_used] the number of words of the prefixed text and of the raw
    reply of the rule engine, which is at least 1 since a text that passes
    the validation has a word; the value returned is the raw reply behind
    the label of the role, [导师回答] for a tutor. *)
Theorem token_used_grows (w : World) (text reply : pystr)
        (self self' : AdvancedAICharacter) :
  AdvancedAICharacter.speak w text self = (Ok reply, self') ->
  exists raw : pystr,
    fst (AICharacter.speak w (prefixed self text) (super self)) = Ok raw
    /\ reply = AdvancedAICharacter._format_response_by_role self raw
    /\ (role self = py "tutor" ->
        prefixed self text = py "【学生提问】" ++ text
        /\ reply = py "导师回答" ++ raw)
    /\ token_used self'
       = (token_used self
          + (Z.of_nat (word_count (prefixed self text))
             + Z.of_nat (word_count raw)))%Z
    /\ (token_used self + 1 <= token_used self')%Z.
Proof.
  rewrite advanced_speak_run.
  destruct (AICharacter.speak w (prefixed self text) (super self))
    as [[raw|e] s0] eqn:Hb; [|done].
  intros Hrun. apply pair_equal_spec in Hrun as [Hreply <-].
  assert (reply = AdvancedAICharacter._format_response_by_role self raw)
    as -> by congruence. clear Hreply.
  exists raw. cbn [fst token_used]. split; [done|]. split; [done|].
  split.
  - intros Hrole. unfold prefixed, AdvancedAICharacter._format_response_by_role.
    rewrite Hrole.
    rewrite (bool_decide_eq_true_2 (py "tutor" = py "tutor")) by done.
    by rewrite (bool_decide_eq_false_2 (py "tutor" = py "reviewer"))
      by discriminate.
  - split; [done|].
    assert (Hok : is_ok (fst (AICharacter.speak w (prefixed self text)
                                (super self))) = true) by by rewrite Hb.
    apply speak_ok_inv in Hok as [Hne _].
    pose proof (word_count_not_blank _ Hne). lia.
Qed.

Lemma token_used_grows_witness :
  exists raw : pystr,
    fst (AICharacter.speak w_sample (prefixed rex (py "x = 1")) (super rex))
    = Ok raw
    /\ rex_reply = AdvancedAICharacter._format_response_by_role rex raw
    /\ (role rex = py "tutor" ->
        prefixed rex (py "x = 1") = py "【学生提问】" ++ py "x = 1"
        /\ rex_reply = py "导师回答" ++ raw)
    /\ token_used rex_after
       = (token_used rex
          + (Z.of_nat (word_count (prefixed rex (py "x = 1")))
             + Z.of_nat (word_count raw)))%Z
    /\ (token_used rex + 1 <= token_used rex_after)%Z.
Proof.
  apply (token_used_grows w_sample (py "x = 1") rex_reply rex rex_after).
  reflexivity.
Defined.
